(** * NacosX: the service lifecycle controller of [src/nacosx/core.py]

    A shallow embedding of [NacosService] (client construction, retrying
    registration, heartbeat loop with self-healing, start/stop, signal
    handlers) and of the [nacos_registry] decorator.  The closure
    [_handle] that [install_signal_handlers] registers runs when the OS
    delivers a signal; it is modelled apart, after the methods.

    Conventions of the embedding.
    - A method of [NacosService] is a computation [M A]: it takes the
      mutable part of [self] together with the process state, and returns
      a result or a raised exception, the new state, and the events it
      emitted, oldest first.
    - The nacos SDK, the thread scheduler and the OS are outside the
      program.  Their answers come from an [oracle : nat -> bool], read at
      the position [clock] of the state, one answer per interaction.
    - The interpreter is CPython 3.11 on 64-bit Linux: timeouts are held
      as 64-bit nanoseconds, and [int] refuses more than 4300 digits.
    - A string is a Python [str] whose code points are below 256, one
      character each.
    - [with self._lock:] serialises the SDK calls of the two threads; in
      this sequential reading of one thread at a time it has no effect of
      its own and is not represented. *)

From Stdlib Require Import ZArith List Bool String Ascii Lia.
Import ListNotations.

Local Open Scope Z_scope.

(** ** Events, log lines and exceptions *)

(** The four operations of the nacos SDK the controller uses
    ([nacos.NacosClient(...)], [add_naming_instance],
    [remove_naming_instance], [send_heartbeat]). *)
Inductive ClientOp : Type :=
| Construct
| AddInstance
| RemoveInstance
| SendHeartbeat.

Inductive Signal : Type := SIGINT | SIGTERM.

(** What a [ValueError] of the program is about. *)
Inductive ValueErrorMsg : Type :=
| SleepNegative                       (* time.sleep with a negative length *)
| SignalOutsideMainThread             (* signal.signal off the main thread *)
| NacosAddrRequired                   (* core.py:374 *)
| ServiceNameRequired                 (* core.py:382 *)
| ServiceAddrFormat (addr : string)   (* core.py:390 *)
| PortParse (addr : string)           (* core.py:401 *)
| Unpack.                             (* too few values to unpack, core.py:397 *)

Inductive exn : Type :=
| NacosException (op : ClientOp)      (* raised inside an SDK call *)
| AttributeError                      (* a method looked up on [None] *)
| ValueError (why : ValueErrorMsg)
| WorkException                       (* raised by the decorated function *)
| OverflowError                       (* a timeout the interpreter cannot hold *)
| OSError                             (* a deadline the kernel refuses *)
| KeyboardInterrupt
| SystemExit.

(** [except Exception] catches everything but the two [BaseException]s. *)
Definition is_Exception (e : exn) : bool :=
  match e with
  | KeyboardInterrupt | SystemExit => false
  | _ => true
  end.

Inductive Level : Type := LDebug | LInfo | LWarning | LError.

(** One constructor per message text of [core.py]; the numbers are the
    source lines. *)
Inductive Msg : Type :=
| MsgClientInitialized                            (* 122 *)
| MsgRegistered                                   (* 136 *)
| MsgRegisterFailed (e : exn)                     (* 139 *)
| MsgTraceback                                    (* 140, 168, 191, 217 *)
| MsgRetrying (attempt retries delay : Z)         (* 154 *)
| MsgDeregistered                                 (* 164 *)
| MsgDeregisterFailed (e : exn)                   (* 167 *)
| MsgHeartbeatFailed (fail_count max : Z) (e : exn) (* 190 *)
| MsgSelfHealing                                  (* 199 *)
| MsgSelfHealed                                   (* 211 *)
| MsgSelfHealFailed                               (* 214 *)
| MsgSelfHealException (e : exn)                  (* 216 *)
| MsgRegistrationGaveUp                           (* 229 *)
| MsgHeartbeatStarted (interval : Z)              (* 237 *)
| MsgStopException (e : exn)                      (* 246 *)
| MsgHandlersInstalled                            (* 283 *)
| MsgInstallFailed (e : exn)                      (* 285 *)
| MsgHandlersRestored                             (* 294 *)
| MsgRestoreFailed (e : exn)                      (* 296 *)
| MsgDecoratedException (e : exn).                (* 433, 436 *)

Inductive Event : Type :=
| EvCall (op : ClientOp) (ok : bool)   (* an SDK call and whether it returned *)
| EvLog (lvl : Level) (m : Msg)        (* [self._log(level, ...)] *)
| EvPrint (why : ValueErrorMsg)        (* the decorator prints the message *)
| EvSleep (seconds : Z)                (* [time.sleep] *)
| EvSpawn                              (* [Thread(...).start()] *)
| EvJoin (timeout : Z)                 (* [Thread.join(timeout=...)] *)
| EvSignal (sig : Signal) (ok : bool)  (* [signal.signal(sig, handler)] *)
| EvWork.                              (* the decorated function runs *)

(** ** The controller's data *)

(** The attributes [__init__] copies from its arguments and no method
    assigns again.  [namespace], [metadata], [username], [password] and
    [logger] are handed to the SDK or the logger untouched and decide no
    branch, so they are left out.  Delays, intervals and timeouts are
    whole seconds. *)
Record Config : Type := mkConfig {
  nacos_addr : string;
  service_name : string;
  service_ip : string;
  service_port : Z;
  ephemeral : bool;
  register_retries : Z;
  register_retry_delay : Z;
  heartbeat_interval : Z;
  heartbeat_max_failures : Z;
  heartbeat_retry_delay : Z
}.

Definition DEFAULT_REGISTER_RETRIES : Z := 3.
Definition DEFAULT_REGISTER_RETRY_DELAY : Z := 2.
Definition DEFAULT_HEARTBEAT_INTERVAL : Z := 5.
Definition DEFAULT_HEARTBEAT_MAX_FAILURES : Z := 5.
Definition DEFAULT_HEARTBEAT_RETRY_DELAY : Z := 2.
Definition DEFAULT_UNREGISTER_TIMEOUT : Z := 2.

(** [threading.TIMEOUT_MAX] in whole seconds: the largest number of
    seconds that fits the interpreter's clock of 64-bit nanoseconds. *)
Definition TIMEOUT_MAX : Z := 9223372036.

(** [time.sleep] hands the kernel the deadline [now + delay] on the
    monotonic clock, and the kernel refuses a deadline of
    [TIMEOUT_MAX] seconds or more.  Up to this delay, half of that
    limit, it accepts on any machine that has been up for less than 146
    years. *)
Definition SLEEP_SURE : Z := 4611686018.

(** A signal handler as [signal.getsignal] reports it. *)
Inductive Handler : Type :=
| SIG_DFL
| SIG_IGN
| PyHandler (id : nat)
| NacosHandle.             (* the closure [_handle] of core.py:255 *)

Inductive Client : Type := NacosClient.
Inductive Thread : Type := HeartbeatThread.

(** The attributes the methods assign, followed by the part of the process
    the program touches: the two installed signal handlers ([None] when the
    handler was not installed from Python) and the oracle position. *)
Record State : Type := mkState {
  _client : option Client;
  _heartbeat_thread : option Thread;
  _heartbeat_stop : bool;
  _registered : bool;
  _orig_sigint : option Handler;
  _orig_sigterm : option Handler;
  sigint_handler : option Handler;
  sigterm_handler : option Handler;
  clock : nat
}.

(** [NacosService.__init__] (core.py:87-93) in a process whose handlers are
    [hi] and [ht]. *)
Definition NacosService_init (hi ht : option Handler) : State :=
  mkState None None false false None None hi ht 0.

Definition set_client (c : option Client) (s : State) : State :=
  mkState c (_heartbeat_thread s) (_heartbeat_stop s) (_registered s)
          (_orig_sigint s) (_orig_sigterm s) (sigint_handler s)
          (sigterm_handler s) (clock s).

Definition set_heartbeat_thread (t : option Thread) (s : State) : State :=
  mkState (_client s) t (_heartbeat_stop s) (_registered s)
          (_orig_sigint s) (_orig_sigterm s) (sigint_handler s)
          (sigterm_handler s) (clock s).

Definition set_heartbeat_stop (b : bool) (s : State) : State :=
  mkState (_client s) (_heartbeat_thread s) b (_registered s)
          (_orig_sigint s) (_orig_sigterm s) (sigint_handler s)
          (sigterm_handler s) (clock s).

Definition set_registered (b : bool) (s : State) : State :=
  mkState (_client s) (_heartbeat_thread s) (_heartbeat_stop s) b
          (_orig_sigint s) (_orig_sigterm s) (sigint_handler s)
          (sigterm_handler s) (clock s).

Definition set_orig (hi ht : option Handler) (s : State) : State :=
  mkState (_client s) (_heartbeat_thread s) (_heartbeat_stop s) (_registered s)
          hi ht (sigint_handler s) (sigterm_handler s) (clock s).

Definition set_handler (sig : Signal) (h : option Handler) (s : State) : State :=
  match sig with
  | SIGINT =>
      mkState (_client s) (_heartbeat_thread s) (_heartbeat_stop s)
              (_registered s) (_orig_sigint s) (_orig_sigterm s) h
              (sigterm_handler s) (clock s)
  | SIGTERM =>
      mkState (_client s) (_heartbeat_thread s) (_heartbeat_stop s)
              (_registered s) (_orig_sigint s) (_orig_sigterm s)
              (sigint_handler s) h (clock s)
  end.

Definition tick (s : State) : State :=
  mkState (_client s) (_heartbeat_thread s) (_heartbeat_stop s) (_registered s)
          (_orig_sigint s) (_orig_sigterm s) (sigint_handler s)
          (sigterm_handler s) (S (clock s)).

(** ** The monad of methods: state, exceptions and an event log *)

Inductive Result (A : Type) : Type :=
| Ok (a : A)
| Raise (e : exn).
Arguments Ok {A} a.
Arguments Raise {A} e.

Definition M (A : Type) : Type := State -> Result A * State * list Event.

Definition ret {A : Type} (a : A) : M A := fun s => (Ok a, s, []).

Definition raise {A : Type} (e : exn) : M A := fun s => (Raise e, s, []).

Definition bind {A B : Type} (m : M A) (k : A -> M B) : M B :=
  fun s =>
    match m s with
    | (Ok a, s1, ev1) =>
        match k a s1 with
        | (r, s2, ev2) => (r, s2, ev1 ++ ev2)
        end
    | (Raise e, s1, ev1) => (Raise e, s1, ev1)
    end.

Notation "x <- c1 ;; c2" := (bind c1 (fun x => c2))
  (at level 61, c1 at next level, right associativity).
Notation "c1 ;; c2" := (bind c1 (fun _ => c2))
  (at level 61, right associativity).

(** [try: body / except Exception as e: handler e]. *)
Definition try_except {A : Type} (body : M A) (handler : exn -> M A) : M A :=
  fun s =>
    match body s with
    | (Raise e, s1, ev1) =>
        if is_Exception e then
          match handler e s1 with
          | (r, s2, ev2) => (r, s2, ev1 ++ ev2)
          end
        else (Raise e, s1, ev1)
    | done => done
    end.

(** [try: body / finally: cleanup]. *)
Definition try_finally {A : Type} (body : M A) (cleanup : M unit) : M A :=
  fun s =>
    match body s with
    | (r, s1, ev1) =>
        match cleanup s1 with
        | (Ok _, s2, ev2) => (r, s2, ev1 ++ ev2)
        | (Raise e, s2, ev2) => (Raise e, s2, ev1 ++ ev2)
        end
    end.

Definition emit (e : Event) : M unit := fun s => (Ok tt, s, [e]).

Definition gets {A : Type} (f : State -> A) : M A := fun s => (Ok (f s), s, []).

Definition modify (f : State -> State) : M unit := fun s => (Ok tt, f s, []).

(** The result, final state and events of a run. *)
Definition result_of {A : Type} (r : Result A * State * list Event) : Result A :=
  fst (fst r).
Definition state_of {A : Type} (r : Result A * State * list Event) : State :=
  snd (fst r).
Definition events_of {A : Type} (r : Result A * State * list Event) : list Event :=
  snd r.

(** ** The methods of [NacosService] *)

Section Controller.

(** The configuration of the instance, and the environment's answers. *)
Variable cfg : Config.
Variable oracle : nat -> bool.

(** The next answer of the environment. *)
Definition consult : M bool :=
  fun s => (Ok (oracle (clock s)), tick s, []).

(** [self._log(level, ...)] (core.py:95-108).  With a logger the line
    goes to the sink of its level, without one it is printed; the event
    records the level the caller passed either way. *)
Definition _log (lvl : Level) (m : Msg) : M unit := emit (EvLog lvl m).

(** [self._client.<op>(...)]: an [AttributeError] when the client is
    still [None], otherwise the SDK call, which returns or raises. *)
Definition client_call (op : ClientOp) : M unit :=
  c <- gets _client ;;
  match c with
  | None => raise AttributeError
  | Some _ =>
      ok <- consult ;;
      emit (EvCall op ok) ;;
      if ok then ret tt else raise (NacosException op)
  end.

(** [time.sleep(delay)].  A length the interpreter's clock cannot hold
    is an [OverflowError], and a negative one it can hold a
    [ValueError].  Above [SLEEP_SURE] whether the kernel accepts the
    deadline depends on how long the machine has been up, which is the
    environment's answer; refused, it is an [OSError]. *)
Definition sleep (delay : Z) : M unit :=
  if (delay <? - TIMEOUT_MAX) || (TIMEOUT_MAX <? delay) then
    raise OverflowError
  else if delay <? 0 then raise (ValueError SleepNegative)
  else if delay <=? SLEEP_SURE then emit (EvSleep delay)
  else
    accepted <- consult ;;
    if accepted then emit (EvSleep delay) else raise OSError.

(** [_init_client] (core.py:110-122).  The module-level [import nacos]
    has succeeded when the class exists, so [nacos is None] is false. *)
Definition _init_client : M unit :=
  c <- gets _client ;;
  match c with
  | Some _ => ret tt
  | None =>
      ok <- consult ;;
      emit (EvCall Construct ok) ;;
      if ok then
        modify (set_client (Some NacosClient)) ;;
        _log LInfo MsgClientInitialized
      else raise (NacosException Construct)
  end.

(** [_register_once] (core.py:124-141). *)
Definition _register_once : M bool :=
  try_except
    (client_call AddInstance ;;
     modify (set_registered true) ;;
     _log LInfo MsgRegistered ;;
     ret true)
    (fun e =>
       _log LWarning (MsgRegisterFailed e) ;;
       _log LDebug MsgTraceback ;;
       ret false).

(** The body of [for attempt in range(1, retries + 1)] (core.py:149-155),
    by recursion on the number [n] of values the range still holds. *)
Fixpoint retry_loop (n : nat) (attempt retries delay : Z) : M bool :=
  match n with
  | O => ret false
  | S n' =>
      ok <- _register_once ;;
      if ok then ret true
      else
        (if attempt <? retries then
           _log LInfo (MsgRetrying attempt retries delay) ;;
           sleep delay
         else ret tt) ;;
        retry_loop n' (attempt + 1) retries delay
  end.

(** [register_with_retry] (core.py:143-156); [None] selects the
    configured default.  [range(1, retries + 1)] holds [retries] values,
    none when [retries <= 0]. *)
Definition register_with_retry (retries delay : option Z) : M bool :=
  let retries :=
    match retries with None => register_retries cfg | Some r => r end in
  let delay :=
    match delay with None => register_retry_delay cfg | Some d => d end in
  _init_client ;;
  retry_loop (Z.to_nat retries) 1 retries delay.

(** [_remove_once] (core.py:158-169). *)
Definition _remove_once : M bool :=
  try_except
    (client_call RemoveInstance ;;
     modify (set_registered false) ;;
     _log LInfo MsgDeregistered ;;
     ret true)
    (fun e =>
       _log LWarning (MsgDeregisterFailed e) ;;
       _log LDebug MsgTraceback ;;
       ret false).

(** [self._heartbeat_stop.wait(timeout)] as the heartbeat thread sees
    it: true at once when the event is set; otherwise the environment
    says whether the other thread sets it before the timeout.  A [set()]
    that lands between two waits is seen by the next one, which is the
    first point where the loop looks at the event again.  On an event
    that is not set, a timeout above [TIMEOUT_MAX] is an
    [OverflowError] before any waiting. *)
Definition stop_wait (timeout : Z) : M bool :=
  b <- gets _heartbeat_stop ;;
  if b then ret true
  else
    signalled <- consult ;;
    modify (set_heartbeat_stop signalled) ;;
    if signalled then ret true
    else if TIMEOUT_MAX <? timeout then raise OverflowError
    else ret false.

(** The inner [try] of the self-healing block (core.py:202-206): one
    remove-instance call, whose exception is passed over. *)
Definition remove_ignoring_errors : M unit :=
  try_except (client_call RemoveInstance) (fun _ => ret tt).

(** The self-healing block (core.py:199-217); the result is the new
    [fail_count]. *)
Definition self_heal (fail_count : Z) : M Z :=
  _log LWarning MsgSelfHealing ;;
  try_except
    (remove_ignoring_errors ;;
     ok <- register_with_retry None None ;;
     if ok then
       _log LInfo MsgSelfHealed ;;
       ret 0
     else
       _log LError MsgSelfHealFailed ;;
       ret fail_count)
    (fun e2 =>
       _log LError (MsgSelfHealException e2) ;;
       _log LDebug MsgTraceback ;;
       ret fail_count).

Inductive LoopCtl : Type := Break | Continue.

(** One pass through the body of [while not ...is_set()]
    (core.py:176-217): how the pass leaves the loop body, and
    [fail_count] at that point. *)
Definition heartbeat_iteration (fail_count : Z) : M (LoopCtl * Z) :=
  is_stopped <- stop_wait (heartbeat_interval cfg) ;;
  if is_stopped then ret (Break, fail_count)
  else if negb (ephemeral cfg) then ret (Continue, fail_count)
  else
    try_except
      (client_call SendHeartbeat ;;
       ret (Continue, 0))
      (fun e =>
         let fail_count := fail_count + 1 in
         _log LWarning
              (MsgHeartbeatFailed fail_count (heartbeat_max_failures cfg) e) ;;
         _log LDebug MsgTraceback ;;
         stopped <- stop_wait (heartbeat_retry_delay cfg) ;;
         if stopped then ret (Break, fail_count)
         else if heartbeat_max_failures cfg <=? fail_count then
           c <- self_heal fail_count ;;
           ret (Continue, c)
         else ret (Continue, fail_count)).

(** Whether the loop has returned or [fuel] passes were not enough. *)
Inductive LoopStatus : Type := Exited | Running.

(** The [while] loop of [_heartbeat_loop] from a given [fail_count],
    for at most [fuel] passes. *)
Fixpoint heartbeat_loop_from (fuel : nat) (fail_count : Z)
  : M (LoopStatus * Z) :=
  match fuel with
  | O => ret (Running, fail_count)
  | S fuel' =>
      stopped <- gets _heartbeat_stop ;;
      if stopped then ret (Exited, fail_count)
      else
        r <- heartbeat_iteration fail_count ;;
        match r with
        | (Break, c) => ret (Exited, c)
        | (Continue, c) => heartbeat_loop_from fuel' c
        end
  end.

(** [_heartbeat_loop] (core.py:171-217). *)
Definition _heartbeat_loop (fuel : nat) : M (LoopStatus * Z) :=
  heartbeat_loop_from fuel 0.

(** [start] (core.py:219-237). *)
Definition start : M unit :=
  _init_client ;;
  ok <- register_with_retry None None ;;
  if negb ok then
    _log LError MsgRegistrationGaveUp
  else if ephemeral cfg then
    modify (set_heartbeat_stop false) ;;
    modify (set_heartbeat_thread (Some HeartbeatThread)) ;;
    emit EvSpawn ;;
    _log LInfo (MsgHeartbeatStarted (heartbeat_interval cfg))
  else ret tt.

(** [Thread.is_alive()]: whether the heartbeat thread has returned is
    the scheduler's answer. *)
Definition is_alive : M bool := consult.

(** [Thread.join(timeout=...)] on the thread [is_alive] has just found
    alive: a timeout above [TIMEOUT_MAX] is an [OverflowError]. *)
Definition join (timeout : Z) : M unit :=
  if TIMEOUT_MAX <? timeout then raise OverflowError
  else emit (EvJoin timeout).

(** [stop] (core.py:239-251). *)
Definition stop (unregister_timeout : Z) : M unit :=
  try_except
    (t <- gets _heartbeat_thread ;;
     match t with
     | None => ret tt
     | Some _ =>
         alive <- is_alive ;;
         if alive then
           modify (set_heartbeat_stop true) ;;
           join unregister_timeout
         else ret tt
     end)
    (fun e => _log LWarning (MsgStopException e)) ;;
  try_except
    (_remove_once ;; ret tt)
    (fun _ => ret tt).

(** [signal.signal(sig, h)]: a [ValueError] when the caller is not the
    main thread, which is the environment's answer. *)
Definition signal_signal (sig : Signal) (h : Handler) : M unit :=
  ok <- consult ;;
  emit (EvSignal sig ok) ;;
  if ok then modify (set_handler sig (Some h))
  else raise (ValueError SignalOutsideMainThread).

(** [install_signal_handlers] (core.py:253-285). *)
Definition install_signal_handlers : M unit :=
  hi <- gets sigint_handler ;;
  ht <- gets sigterm_handler ;;
  modify (set_orig hi ht) ;;
  try_except
    (signal_signal SIGINT NacosHandle ;;
     signal_signal SIGTERM NacosHandle ;;
     _log LInfo MsgHandlersInstalled)
    (fun e => _log LWarning (MsgInstallFailed e)).

(** [restore_signal_handlers] (core.py:287-296). *)
Definition restore_signal_handlers : M unit :=
  try_except
    (hi <- gets _orig_sigint ;;
     match hi with
     | Some h => signal_signal SIGINT h
     | None => ret tt
     end ;;
     ht <- gets _orig_sigterm ;;
     match ht with
     | Some h => signal_signal SIGTERM h
     | None => ret tt
     end ;;
     _log LInfo MsgHandlersRestored)
    (fun e => _log LWarning (MsgRestoreFailed e)).

(** [__enter__] (core.py:298-302). *)
Definition __enter__ : M unit :=
  install_signal_handlers ;;
  start.

(** [__exit__] (core.py:304-309); it returns [None], so an exception of
    the block is not suppressed. *)
Definition __exit__ : M unit :=
  try_finally (stop DEFAULT_UNREGISTER_TIMEOUT) restore_signal_handlers.

(** [with nacos_svc: body]: [__exit__] runs when [__enter__] has
    returned, however [body] ends. *)
Definition with_service {R : Type} (body : M R) : M R :=
  __enter__ ;;
  try_finally body __exit__.

End Controller.

(** ** Strings of the decorator: [in], [rsplit] and [int] *)

Local Open Scope string_scope.


(** [s.rsplit(':', 1)]: the parts before and after the last colon; [None]
    stands for the one-element list of a string without a colon. *)
Fixpoint rsplit_colon (s : string) : option (string * string) :=
  match s with
  | EmptyString => None
  | String c rest =>
      match rsplit_colon rest with
      | Some (a, b) => Some (String c a, b)
      | None => if Ascii.eqb c ":" then Some (EmptyString, rest) else None
      end
  end.

(** The characters [int] skips around the number: the six of C's
    [isspace], and the two whitespace characters between U+0080 and
    U+00FF, next line and no-break space. *)
Definition is_space (c : ascii) : bool :=
  let n := nat_of_ascii c in
  ((9 <=? n) && (n <=? 13) || (n =? 32) || (n =? 133) || (n =? 160))%nat.

Fixpoint lstrip (s : string) : string :=
  match s with
  | EmptyString => EmptyString
  | String c rest => if is_space c then lstrip rest else s
  end.

Fixpoint rstrip (s : string) : string :=
  match s with
  | EmptyString => EmptyString
  | String c rest =>
      match rstrip rest with
      | EmptyString => if is_space c then EmptyString else String c EmptyString
      | kept => String c kept
      end
  end.

(** The decimal digits below U+0100 are the ten of ASCII. *)
Definition digit_of (c : ascii) : option Z :=
  let n := nat_of_ascii c in
  if ((48 <=? n) && (n <=? 57))%nat then Some (Z.of_nat (n - 48)) else None.

(** Decimal digits, where one underscore may stand between two digits. *)
Fixpoint digits (s : string) (acc : Z) (after_digit : bool) : option Z :=
  match s with
  | EmptyString => if after_digit then Some acc else None
  | String c rest =>
      match digit_of c with
      | Some d => digits rest (10 * acc + d)%Z true
      | None =>
          if Ascii.eqb c "_" && after_digit then digits rest acc false
          else None
      end
  end.

(** How many digits a string holds, underscores not counted. *)
Fixpoint digit_count (s : string) : nat :=
  match s with
  | EmptyString => O
  | String c rest =>
      match digit_of c with
      | Some _ => S (digit_count rest)
      | None => digit_count rest
      end
  end.

(** [sys.get_int_max_str_digits()], as the interpreter starts. *)
Definition INT_MAX_STR_DIGITS : nat := 4300.

(** The digits of [int], under the limit on their number. *)
Definition limited_digits (body : string) : option Z :=
  match digits body 0%Z false with
  | Some v =>
      if (INT_MAX_STR_DIGITS <? digit_count body)%nat then None else Some v
  | None => None
  end.

(** [int(s)]: surrounding whitespace, an optional sign, then the digits;
    [None] is the [ValueError]. *)
Definition py_int (s : string) : option Z :=
  match rstrip (lstrip s) with
  | String "+" rest => limited_digits rest
  | String "-" rest => option_map Z.opp (limited_digits rest)
  | body => limited_digits body
  end.

(** ** The decorator [nacos_registry] (core.py:320-445) *)

Module nacos_registry.

(** The keyword arguments of the decorator that decide a branch or reach
    the controller. *)
Record Args : Type := mkArgs {
  enabled : bool;
  nacos_addr : string;
  service_name : string;
  service_addr : string;
  ephemeral : bool;
  heartbeat_interval : Z;
  heartbeat_max_failures : Z;
  heartbeat_retry_delay : Z;
  raise_on_register_fail : bool;
  register_retries : Z;
  register_retry_delay : Z
}.

(** The [NacosService(...)] call of core.py:409-425. *)
Definition service_config (a : Args) (service_ip : string) (service_port : Z)
  : Config :=
  mkConfig (nacos_addr a) (service_name a) service_ip service_port
           (ephemeral a) (register_retries a) (register_retry_delay a)
           (heartbeat_interval a) (heartbeat_max_failures a)
           (heartbeat_retry_delay a).

Section Wrapper.

Variable a : Args.
Variable oracle : nat -> bool.
Variable R : Type.
(** How the decorated function ends when it is called. *)
Variable work : Result R.

(** [_call_func(func, is_coroutine, *args, **kwargs)] (core.py:312-317):
    both branches call [func]. *)
Definition _call_func : M (option R) :=
  emit EvWork ;;
  match work with
  | Ok r => ret (Some r)
  | Raise e => raise e
  end.


(** The tail of [wrapper] (core.py:408-442): the controller is built for
    [service_ip] and [service_port] and the decorated function runs
    inside its [with] block. *)
Definition activate (service_ip : string) (service_port : Z) : M (option R) :=
  let cfg := service_config a service_ip service_port in
  try_except
    (with_service cfg oracle _call_func)
    (fun e =>
       emit (EvLog LError (MsgDecoratedException e)) ;;
       emit (EvLog LDebug MsgTraceback) ;;
       if raise_on_register_fail a then raise e
       else ret None).


End Wrapper.

End nacos_registry.

(** ** Observations on runs *)

Close Scope string_scope.

Definition ClientOp_eqb (a b : ClientOp) : bool :=
  match a, b with
  | Construct, Construct
  | AddInstance, AddInstance
  | RemoveInstance, RemoveInstance
  | SendHeartbeat, SendHeartbeat => true
  | _, _ => false
  end.

Definition is_call (op : ClientOp) (e : Event) : bool :=
  match e with
  | EvCall op' _ => ClientOp_eqb op op'
  | _ => false
  end.

(** How many times the SDK operation [op] was called in a run. *)
Definition count_calls (op : ClientOp) (evs : list Event) : nat :=
  List.length (filter (is_call op) evs).

Definition is_sleep (e : Event) : bool :=
  match e with
  | EvSleep _ => true
  | _ => false
  end.

(** A run with everything but the add-instance calls and the sleeps
    dropped. *)
Definition attempts_and_sleeps (evs : list Event) : list Event :=
  filter (fun e => is_call AddInstance e || is_sleep e) evs.

(** [n] failed attempts, each followed by a sleep. *)
Fixpoint failed_rounds (n : nat) (delay : Z) : list Event :=
  match n with
  | O => []
  | S n' => EvCall AddInstance false :: EvSleep delay :: failed_rounds n' delay
  end.

(** [k] attempts with a sleep between two of them and none after the
    last, whose outcome is [last]. *)
Definition retry_skeleton (k : nat) (delay : Z) (last : bool) : list Event :=
  failed_rounds (k - 1) delay ++ [EvCall AddInstance last].

(** The oracle position of the first add-instance call of
    [register_with_retry]: constructing the client takes one answer. *)
Definition first_attempt_clock (s : State) : nat :=
  match _client s with
  | Some _ => clock s
  | None => S (clock s)
  end.

(** Whether the [k]-th add-instance call of [register_with_retry] started
    in [s] returns, [k] counted from 1. *)
Definition attempt_ok (oracle : nat -> bool) (s : State) (k : nat) : bool :=
  oracle (first_attempt_clock s + (k - 1))%nat.

(** Whether an SDK call made in [s] returns: there must be a client, and
    the environment's next answer decides. *)
Definition call_returns (oracle : nat -> bool) (s : State) : bool :=
  match _client s with
  | Some _ => oracle (clock s)
  | None => false
  end.

(** The number of SDK calls one [self._client.<op>(...)] makes in [s]:
    none when the client is [None], where the attribute lookup fails. *)
Definition client_calls_of (s : State) : nat :=
  match _client s with
  | Some _ => 1
  | None => 0
  end.

(** The number of retries [register_with_retry] works with. *)
Definition effective_retries (cfg : Config) (arg : option Z) : Z :=
  match arg with
  | None => register_retries cfg
  | Some r => r
  end.

(** The events [register_with_retry] can emit. *)
Definition registration_event (e : Event) : bool :=
  match e with
  | EvCall Construct _ | EvCall AddInstance _ | EvSleep _ => true
  | EvLog LInfo MsgClientInitialized
  | EvLog LInfo MsgRegistered
  | EvLog LWarning (MsgRegisterFailed _)
  | EvLog LDebug MsgTraceback
  | EvLog LInfo (MsgRetrying _ _ _) => true
  | _ => false
  end.

Definition is_spawn (e : Event) : bool :=
  match e with
  | EvSpawn => true
  | _ => false
  end.

(** Whether a run started the heartbeat thread. *)
Definition spawned (evs : list Event) : bool := existsb is_spawn evs.

(** Warning level or above. *)
Definition severe (lvl : Level) : bool :=
  match lvl with
  | LWarning | LError => true
  | LDebug | LInfo => false
  end.

Definition followed_by_warning (rest : list Event) : bool :=
  match rest with
  | EvLog lvl _ :: _ => severe lvl
  | _ => false
  end.

(** Every SDK call that raised, and every [signal.signal] that raised, is
    followed at once by a log line of warning level or above; a failed SDK
    call of an operation in [exempt] is let through without one. *)
Fixpoint failures_logged (exempt : ClientOp -> bool) (evs : list Event)
  : bool :=
  match evs with
  | [] => true
  | EvCall op false :: rest =>
      (exempt op || followed_by_warning rest) && failures_logged exempt rest
  | EvSignal _ false :: rest =>
      followed_by_warning rest && failures_logged exempt rest
  | _ :: rest => failures_logged exempt rest
  end.

Definition no_exemption (op : ClientOp) : bool := false.

(** [s'] differs from [s] at most in [_registered], the oracle position,
    and a client that was built. *)
Definition keeps_thread_state (s s' : State) : Prop :=
  _heartbeat_thread s' = _heartbeat_thread s /\
  _heartbeat_stop s' = _heartbeat_stop s /\
  _orig_sigint s' = _orig_sigint s /\
  _orig_sigterm s' = _orig_sigterm s /\
  sigint_handler s' = sigint_handler s /\
  sigterm_handler s' = sigterm_handler s /\
  (_client s <> None -> _client s' = _client s).

(** What every run of the retry loop from [s] satisfies. *)
Definition registration_facts
           (s : State) (run : Result bool * State * list Event) : Prop :=
  keeps_thread_state s (state_of run) /\
  (result_of run <> Ok true -> _registered (state_of run) = _registered s) /\
  (result_of run = Ok true -> _registered (state_of run) = true) /\
  (forall e, result_of run = Raise e -> is_Exception e = true) /\
  forallb registration_event (events_of run) = true.

(** The warning of core.py:190, which a failed heartbeat send logs. *)
Definition is_heartbeat_failure_log (e : Event) : bool :=
  match e with
  | EvLog LWarning (MsgHeartbeatFailed _ _ _) => true
  | _ => false
  end.

(** Whether a heartbeat send failed in the run. *)
Definition heartbeat_failed (evs : list Event) : bool :=
  existsb is_heartbeat_failure_log evs.

(** The warning of core.py:199, the first statement of self-healing. *)
Definition is_self_healing_log (e : Event) : bool :=
  match e with
  | EvLog LWarning MsgSelfHealing => true
  | _ => false
  end.

(** Whether the run entered the self-healing block. *)
Definition self_healing_invoked (evs : list Event) : bool :=
  existsb is_self_healing_log evs.

(** The lines that close self-healing, by how [register_with_retry]
    ended (core.py:211, 214, 216-217). *)
Definition healing_outcome_log (r : Result bool) : list Event :=
  match r with
  | Ok true => [EvLog LInfo MsgSelfHealed]
  | Ok false => [EvLog LError MsgSelfHealFailed]
  | Raise e => [EvLog LError (MsgSelfHealException e); EvLog LDebug MsgTraceback]
  end.

(** The failure counter as the events dictate it: a heartbeat that was
    sent resets it, one that failed adds one, a successful self-healing
    resets it. *)
Definition counter_step (n : Z) (e : Event) : Z :=
  match e with
  | EvCall SendHeartbeat true => 0
  | EvCall SendHeartbeat false => n + 1
  | EvLog LInfo MsgSelfHealed => 0
  | _ => n
  end.

(** The counter after the events [evs], from the value [n]. *)
Definition replay_counter (n : Z) (evs : list Event) : Z :=
  fold_left counter_step evs n.

(** Heartbeat sends only: the length of the current run of failures. *)
Definition streak_step (n : Z) (e : Event) : Z :=
  match e with
  | EvCall SendHeartbeat true => 0
  | EvCall SendHeartbeat false => n + 1
  | _ => n
  end.

(** The number of failed heartbeat sends since the last one that
    succeeded (or since the start). *)
Definition failure_streak (evs : list Event) : Z :=
  fold_left streak_step evs 0.

(** Along the events, from a counter value and a streak: every value the
    loop logs after a failed send, which is the value it then compares
    with [heartbeat_max_failures], is the replayed counter and is at most
    the current streak of failed sends. *)
Fixpoint counter_follows_sends (counter streak : Z) (evs : list Event)
  : bool :=
  match evs with
  | [] => true
  | e :: rest =>
      let counter' := counter_step counter e in
      let streak' := streak_step streak e in
      match e with
      | EvLog LWarning (MsgHeartbeatFailed m _ _) =>
          (m =? counter') && (m <=? streak')
      | _ => true
      end && counter_follows_sends counter' streak' rest
  end.

(** The exemption of a single SDK operation. *)
Definition is_call_of (op op' : ClientOp) : bool := ClientOp_eqb op op'.

(** What a failed heartbeat send in [s] emits before the retry wait
    (core.py:184, 190-191). *)
Definition send_failure_events (count max : Z) (s : State) : list Event :=
  match _client s with
  | Some _ =>
      [EvCall SendHeartbeat false;
       EvLog LWarning (MsgHeartbeatFailed count max (NacosException SendHeartbeat));
       EvLog LDebug MsgTraceback]
  | None =>
      [EvLog LWarning (MsgHeartbeatFailed count max AttributeError);
       EvLog LDebug MsgTraceback]
  end.

(** The methods of the controller, as operations on its state. *)
Inductive Operation : Type :=
| OpInitClient
| OpRegisterOnce
| OpRegisterWithRetry (retries delay : option Z)
| OpRemoveOnce
| OpHeartbeatLoop (fuel : nat)
| OpStart
| OpStop (unregister_timeout : Z)
| OpInstallSignalHandlers
| OpRestoreSignalHandlers
| OpEnter
| OpExit.

(** An operation run for its effect. *)
Definition perform (cfg : Config) (oracle : nat -> bool) (op : Operation)
  : M unit :=
  match op with
  | OpInitClient => _init_client oracle
  | OpRegisterOnce => _register_once oracle ;; ret tt
  | OpRegisterWithRetry retries delay =>
      register_with_retry cfg oracle retries delay ;; ret tt
  | OpRemoveOnce => _remove_once oracle ;; ret tt
  | OpHeartbeatLoop fuel => _heartbeat_loop cfg oracle fuel ;; ret tt
  | OpStart => start cfg oracle
  | OpStop unregister_timeout => stop oracle unregister_timeout
  | OpInstallSignalHandlers => install_signal_handlers oracle
  | OpRestoreSignalHandlers => restore_signal_handlers oracle
  | OpEnter => __enter__ cfg oracle
  | OpExit => __exit__ oracle
  end.

(** The operations that run [start]. *)
Definition clears_stop_signal (op : Operation) : bool :=
  match op with
  | OpStart | OpEnter => true
  | _ => false
  end.

(** The operation the heartbeat thread runs. *)
Definition in_heartbeat_thread (op : Operation) : bool :=
  match op with
  | OpHeartbeatLoop _ => true
  | _ => false
  end.

(** The SDK failures an operation lets pass without a log line of its
    own: the heartbeat loop the remove-instance call of self-healing,
    whose exception is passed over; the methods of the foreground a failed
    construction of the client, which they do not catch. *)
Definition unlogged_failures (op : Operation) : ClientOp -> bool :=
  if in_heartbeat_thread op then is_call_of RemoveInstance
  else is_call_of Construct.

Definition is_failed_construct (e : Event) : bool :=
  match e with
  | EvCall Construct false => true
  | _ => false
  end.

(** Whether the construction of the client failed in the run. *)
Definition construct_failed (evs : list Event) : bool :=
  existsb is_failed_construct evs.


(** ** Four sentences of the specification, as they are written

    They are stated here in the specification's words and refuted below;
    the theorems on the code state what holds instead. *)

(** "Calling [stop] twice in succession produces no additional registry
    calls beyond the first deregistration attempt." *)
Definition stop_is_idempotent : Prop :=
  forall (oracle : nat -> bool) (t : Z) (s : State),
    count_calls RemoveInstance (events_of ((stop oracle t ;; stop oracle t) s))
    = count_calls RemoveInstance (events_of (stop oracle t s)).

(** "Self-healing is invoked if and only if the consecutive-failure
    counter reaches [heartbeat_max_failures]": in a pass entered with the
    counter at [c], the counter reaches it when the send fails and
    [c + 1] is at least the maximum. *)
Definition self_healing_at_threshold : Prop :=
  forall (cfg : Config) (oracle : nat -> bool) (c : Z) (s : State),
    let evs := events_of (heartbeat_iteration cfg oracle c s) in
    self_healing_invoked evs = true <->
    heartbeat_failed evs = true /\ heartbeat_max_failures cfg <= c + 1.

(** "The stop signal, once set, cannot be unset." *)
Definition stop_signal_is_one_shot : Prop :=
  forall (cfg : Config) (oracle : nat -> bool) (op : Operation) (s : State),
    _heartbeat_stop s = true ->
    _heartbeat_stop (state_of (perform cfg oracle op s)) = true.

(** The one exemption the specification grants: deregistration failures
    on the path of [stop].  A failed construction of the client is let
    through as well, since the foreground does not catch it. *)
Definition exemption_of_the_spec (op : Operation) (call : ClientOp) : bool :=
  is_call_of Construct call ||
  match op with
  | OpStop _ | OpExit => is_call_of RemoveInstance call
  | _ => false
  end.

(** "No error is ever silently dropped without at least a warning-level
    log, except deregistration failures during the cleanup path." *)
Definition no_failure_is_dropped : Prop :=
  forall (cfg : Config) (oracle : nat -> bool) (op : Operation) (s : State),
    failures_logged (exemption_of_the_spec op)
                    (events_of (perform cfg oracle op s)) = true.

(** ** Inputs of the worked examples *)

(** The defaults of the constructor, for an ephemeral instance. *)
Definition example_config : Config :=
  mkConfig "127.0.0.1:8848" "orders" "10.0.0.1" 8080 true
           DEFAULT_REGISTER_RETRIES DEFAULT_REGISTER_RETRY_DELAY
           DEFAULT_HEARTBEAT_INTERVAL DEFAULT_HEARTBEAT_MAX_FAILURES
           DEFAULT_HEARTBEAT_RETRY_DELAY.

(** Scenario A: three attempts and no delay between them. *)
Definition scenario_a_config : Config :=
  mkConfig "127.0.0.1:8848" "orders" "10.0.0.1" 8080 true 3 0
           DEFAULT_HEARTBEAT_INTERVAL DEFAULT_HEARTBEAT_MAX_FAILURES
           DEFAULT_HEARTBEAT_RETRY_DELAY.

(** A controller as [__init__] leaves it. *)
Definition fresh : State := NacosService_init (Some SIG_DFL) (Some SIG_DFL).

(** An environment in which everything succeeds. *)
Definition always (n : nat) : bool := true.

(** An environment in which only the interactions at the listed
    positions succeed. *)
Definition only (ok : list nat) (n : nat) : bool := existsb (Nat.eqb n) ok.

(** The controller after a [start] in which everything succeeded. *)
Definition started : State := state_of (start example_config always fresh).

(** ... and after the [stop] that followed, which found the heartbeat
    thread alive. *)
Definition stopped : State :=
  state_of (stop always DEFAULT_UNREGISTER_TIMEOUT started).

(** Self-healing after the first failed heartbeat. *)
Definition healing_config : Config :=
  mkConfig "127.0.0.1:8848" "orders" "10.0.0.1" 8080 true
           DEFAULT_REGISTER_RETRIES DEFAULT_REGISTER_RETRY_DELAY
           DEFAULT_HEARTBEAT_INTERVAL 1 DEFAULT_HEARTBEAT_RETRY_DELAY.

(** The decorator's arguments of Scenario D. *)
Definition scenario_d_args (service_addr : string) (strict : bool)
  : nacos_registry.Args :=
  nacos_registry.mkArgs true "127.0.0.1:8848" "orders" service_addr true
                        DEFAULT_HEARTBEAT_INTERVAL
                        DEFAULT_HEARTBEAT_MAX_FAILURES
                        DEFAULT_HEARTBEAT_RETRY_DELAY strict
                        DEFAULT_REGISTER_RETRIES DEFAULT_REGISTER_RETRY_DELAY.


(** * Further observations and the signal handler *)

(** How many times the run slept. *)
Definition count_sleeps (evs : list Event) : nat :=
  List.length (filter is_sleep evs).

(** The events the retry loop can emit: add-instance calls, sleeps and log
    lines. *)
Definition attempt_event (e : Event) : bool :=
  match e with
  | EvCall AddInstance _ | EvSleep _ | EvLog _ _ => true
  | _ => false
  end.

Definition is_failed_signal (e : Event) : bool :=
  match e with
  | EvSignal _ false => true
  | _ => false
  end.

(** No [signal.signal] call of the run raised. *)
Definition signals_ok (evs : list Event) : bool :=
  negb (existsb is_failed_signal evs).

Definition is_work (e : Event) : bool :=
  match e with
  | EvWork => true
  | _ => false
  end.

(** How many times the decorated function was called. *)
Definition count_work (evs : list Event) : nat :=
  List.length (filter is_work evs).

(** How [time.sleep(delay)] can fail, by the delay: a [ValueError] for a
    negative delay the interpreter's clock holds, an [OverflowError] for
    a delay it does not hold, an [OSError] above [SLEEP_SURE] when the
    kernel refuses the deadline. *)
Definition sleep_error (delay : Z) (e : exn) : Prop :=
  e = ValueError SleepNegative /\ - TIMEOUT_MAX <= delay < 0 \/
  e = OverflowError /\ (delay < - TIMEOUT_MAX \/ TIMEOUT_MAX < delay) \/
  e = OSError /\ SLEEP_SURE < delay <= TIMEOUT_MAX.

(** The handler [restore_signal_handlers] leaves for a signal whose saved
    handler is [orig] and whose current handler is [current]: a saved
    [None] is not reinstalled (core.py:290-293). *)
Definition restored (orig current : option Handler) : option Handler :=
  match orig with
  | Some h => Some h
  | None => current
  end.

(** The four handler fields agree. *)
Definition same_handlers (s s' : State) : Prop :=
  _orig_sigint s' = _orig_sigint s /\
  _orig_sigterm s' = _orig_sigterm s /\
  sigint_handler s' = sigint_handler s /\
  sigterm_handler s' = sigterm_handler s.

(** What [wrapper] returns once the [with] block was entered, by how the
    decorated function ended (core.py:428-442). *)
Definition decorated_result {R : Type} (strict : bool) (work : Result R)
  : Result (option R) :=
  match work with
  | Ok r => Ok (Some r)
  | Raise e =>
      if is_Exception e then (if strict then Raise e else Ok None)
      else Raise e
  end.

(** The lines of core.py:433-434 for an exception [e] that reached the
    [except] of [wrapper]. *)
Definition decorated_error_log (e : exn) : list Event :=
  [EvLog LError (MsgDecoratedException e); EvLog LDebug MsgTraceback].



(** ** The closure [_handle] of [install_signal_handlers] (core.py:255-275) *)

(** What a run of [_handle] shows: its own two log lines, the events of
    the controller's methods it calls, and the call of the handler that
    was installed before. *)
Inductive HandleEvent : Type :=
| HvReceived (sig : Signal)                (* core.py:256 *)
| HvRun (e : Event)                        (* an event of [self.stop()] *)
| HvShutdownFailed (e : exn)               (* core.py:260 *)
| HvPrevious (h : Handler) (sig : Signal). (* core.py:267 *)

(** [bool(h)] for what [signal.getsignal] reports: [SIG_DFL] is the
    integer enum 0, [SIG_IGN] is 1, the others are functions. *)
Definition truthy (h : option Handler) : bool :=
  match h with
  | None | Some SIG_DFL => false
  | Some _ => true
  end.

(** [callable(h)]. *)
Definition callable (h : Handler) : bool :=
  match h with
  | SIG_DFL | SIG_IGN => false
  | PyHandler _ | NacosHandle => true
  end.

(** [{SIGINT: self._orig_sigint, SIGTERM: self._orig_sigterm}.get(signum)]
    (core.py:263). *)
Definition orig_of (sig : Signal) (s : State) : option Handler :=
  match sig with
  | SIGINT => _orig_sigint s
  | SIGTERM => _orig_sigterm s
  end.

Section SignalHandler.

Variable oracle : nat -> bool.

(** How the call [orig(signum, frame)] of a callable handler runs; it is
    code of the process, not of the controller, and may do anything. *)
Variable previous :
  Handler -> Signal -> State -> Result unit * State * list HandleEvent.

(** core.py:262-275, what follows the [try] around [self.stop()]; [log]
    holds the events so far.  [sys.exit(0)] raises [SystemExit], which the
    last [except] raises again. *)
Definition after_stop (sig : Signal) (s : State) (log : list HandleEvent)
  : Result unit * State * list HandleEvent :=
  match orig_of sig s with
  | Some h =>
      if truthy (Some h) && callable h then
        let '(r, s', ev) := previous h sig s in
        let log' := log ++ HvPrevious h sig :: ev in
        match r with
        | Raise e =>
            if is_Exception e then (Raise SystemExit, s', log')
            else (Raise e, s', log')
        | Ok _ => (Raise SystemExit, s', log')
        end
      else (Raise SystemExit, s, log)
  | None => (Raise SystemExit, s, log)
  end.

(** [_handle(signum, frame)] (core.py:255-275). *)
Definition _handle (sig : Signal) (s : State)
  : Result unit * State * list HandleEvent :=
  let '(r, s1, ev) := stop oracle DEFAULT_UNREGISTER_TIMEOUT s in
  let log := HvReceived sig :: map HvRun ev in
  match r with
  | Ok _ => after_stop sig s1 log
  | Raise e =>
      if is_Exception e then after_stop sig s1 (log ++ [HvShutdownFailed e])
      else (Raise e, s1, log)
  end.

End SignalHandler.

(** The saved handler that [_handle] goes on to call: a function, not
    [None], [SIG_DFL] or [SIG_IGN]. *)
Definition chained (sig : Signal) (s : State) : option Handler :=
  match orig_of sig s with
  | Some (PyHandler n) => Some (PyHandler n)
  | Some NacosHandle => Some NacosHandle
  | _ => None
  end.

(** ** Inputs of the further examples *)

(** A permanent instance. *)
Definition permanent_config : Config :=
  mkConfig "127.0.0.1:8848" "orders" "10.0.0.1" 8080 false
           DEFAULT_REGISTER_RETRIES DEFAULT_REGISTER_RETRY_DELAY
           DEFAULT_HEARTBEAT_INTERVAL DEFAULT_HEARTBEAT_MAX_FAILURES
           DEFAULT_HEARTBEAT_RETRY_DELAY.

(** ** Proof tools *)

(** Unfold the monad and the primitive effects, everywhere or in the goal
    only, and compute. *)
Ltac exec :=
  unfold result_of, state_of, events_of, is_alive, _log, client_call, sleep,
    consult, bind, ret, raise, try_except, try_finally, emit, gets, modify in *;
  cbn in *.

Ltac exec_goal :=
  unfold result_of, state_of, events_of, is_alive, _log, client_call, sleep,
    consult, bind, ret, raise, try_except, try_finally, emit, gets, modify;
  cbn.

(** ** Worked examples *)

Example rsplit_colon_splits_at_last :
  rsplit_colon "fe80::1:8080" = Some ("fe80::1", "8080")%string.
Proof. reflexivity. Qed.

Example py_int_forms :
  py_int "8080" = Some 8080 /\
  py_int " +80 " = Some 80 /\
  py_int "8_080" = Some 8080 /\
  py_int "-1" = Some (-1) /\
  py_int "80a" = None /\
  py_int "8__0" = None /\
  py_int "" = None.
Proof. repeat split. Qed.

(** [int] skips the whitespace of C and the two whitespace characters
    between U+0080 and U+00FF, not the separators U+001C to U+001F. *)
Example py_int_whitespace :
  py_int (String (ascii_of_nat 160) "8") = Some 8 /\
  py_int (String (ascii_of_nat 133) "8 ") = Some 8 /\
  py_int (String (ascii_of_nat 28) "8") = None /\
  py_int (String "8" (String (ascii_of_nat 31) "")) = None.
Proof. repeat split. Qed.

(** Scenario B: with [heartbeat_max_failures = 2], two sends that fail in
    a row lead to self-healing once; the third pass sends again. *)
Example two_failures_then_self_healing :
  let cfg :=
    mkConfig "127.0.0.1:8848" "orders" "10.0.0.1" 8080 true 3 2 5 2 2 in
  let run := _heartbeat_loop cfg (only [9%nat; 11%nat]) 3 started in
  result_of run = Ok (Running, 0) /\
  List.length (filter is_self_healing_log (events_of run)) = 1%nat /\
  count_calls SendHeartbeat (events_of run) = 3%nat.
Proof. repeat split. Qed.

(** Scenario C: a permanent instance waits on its interval and never
    sends. *)
Example permanent_instance_never_sends :
  let cfg :=
    mkConfig "127.0.0.1:8848" "orders" "10.0.0.1" 8080 false 3 2 5 5 2 in
  let run := _heartbeat_loop cfg (only []) 7 started in
  result_of run = Ok (Running, 0) /\
  events_of run = [] /\
  clock (state_of run) = (clock started + 7)%nat.
Proof. repeat split. Qed.

(** ** Evaluation lemmas *)

Lemma bind_run {A B : Type} (m : M A) (k : A -> M B) (s : State) :
  bind m k s =
    match m s with
    | (Ok a, s1, ev1) =>
        match k a s1 with
        | (r, s2, ev2) => (r, s2, ev1 ++ ev2)
        end
    | (Raise e, s1, ev1) => (Raise e, s1, ev1)
    end.
Proof. reflexivity. Qed.

(** ** Retrying registration *)

Section ControllerFacts.

Variable cfg : Config.
Variable oracle : nat -> bool.

Lemma register_once_fail (s : State) (c : Client) :
  _client s = Some c -> oracle (clock s) = false ->
  _register_once oracle s =
    (Ok false, tick s,
     [EvCall AddInstance false;
      EvLog LWarning (MsgRegisterFailed (NacosException AddInstance));
      EvLog LDebug MsgTraceback]).
Proof.
  intros Hc Ho.
  unfold _register_once, try_except, client_call, bind, gets, consult, emit.
  rewrite Hc, Ho. reflexivity.
Qed.

Lemma register_once_ok (s : State) (c : Client) :
  _client s = Some c -> oracle (clock s) = true ->
  _register_once oracle s =
    (Ok true, set_registered true (tick s),
     [EvCall AddInstance true; EvLog LInfo MsgRegistered]).
Proof.
  intros Hc Ho.
  unfold _register_once, try_except, client_call, bind, gets, consult, emit.
  rewrite Hc, Ho. reflexivity.
Qed.

Lemma register_once_no_client (s : State) :
  _client s = None ->
  _register_once oracle s =
    (Ok false, s,
     [EvLog LWarning (MsgRegisterFailed AttributeError);
      EvLog LDebug MsgTraceback]).
Proof.
  intros Hc.
  unfold _register_once, try_except, client_call, bind, gets.
  rewrite Hc. reflexivity.
Qed.

(** A delay within the sure range is slept. *)
Lemma sleep_sure (delay : Z) :
  0 <= delay <= SLEEP_SURE ->
  sleep oracle delay = emit (EvSleep delay).
Proof.
  intros Hd. unfold sleep.
  assert (H1 : (delay <? - TIMEOUT_MAX) = false)
    by (apply Z.ltb_ge; unfold TIMEOUT_MAX, SLEEP_SURE in *; lia).
  assert (H2 : (TIMEOUT_MAX <? delay) = false)
    by (apply Z.ltb_ge; unfold TIMEOUT_MAX, SLEEP_SURE in *; lia).
  assert (H3 : (delay <? 0) = false) by (apply Z.ltb_ge; lia).
  assert (H4 : (delay <=? SLEEP_SURE) = true) by (apply Z.leb_le; lia).
  rewrite H1, H2, H3, H4. reflexivity.
Qed.

(** The three ways [time.sleep] ends: it sleeps, or it raises before
    sleeping; above [SLEEP_SURE] it has asked the environment. *)
Lemma sleep_cases (delay : Z) (s : State) :
  exists s',
    (s' = s \/ s' = tick s) /\
    (sleep oracle delay s = (Ok tt, s', [EvSleep delay]) \/
     exists e, is_Exception e = true /\
               sleep oracle delay s = (Raise e, s', [])).
Proof.
  unfold sleep.
  destruct ((delay <? - TIMEOUT_MAX) || (TIMEOUT_MAX <? delay));
    [exists s; split; [auto|right; exists OverflowError; auto]|].
  destruct (delay <? 0);
    [exists s; split; [auto|right; eexists; split; [|reflexivity]; auto]|].
  destruct (delay <=? SLEEP_SURE); [exists s; auto|].
  exists (tick s). split; [auto|].
  unfold bind, consult, emit, raise.
  destruct (oracle (clock s)); [left; reflexivity|].
  right. exists OSError. auto.
Qed.

(** The pause between two attempts (core.py:153-155). *)
Lemma pause_cases (attempt retries delay : Z) (s : State) :
  let pause :=
    if attempt <? retries
    then _log LInfo (MsgRetrying attempt retries delay) ;; sleep oracle delay
    else ret tt in
  exists s',
    (s' = s \/ s' = tick s) /\
    ((attempt <? retries) = false /\ s' = s /\ pause s = (Ok tt, s, []) \/
     (attempt <? retries) = true /\
     pause s = (Ok tt, s',
                [EvLog LInfo (MsgRetrying attempt retries delay);
                 EvSleep delay]) \/
     (attempt <? retries) = true /\
     exists e, is_Exception e = true /\
               pause s = (Raise e, s',
                          [EvLog LInfo (MsgRetrying attempt retries delay)])).
Proof.
  cbv zeta. destruct (attempt <? retries).
  - destruct (sleep_cases delay s) as (s' & Hs' & [E|(e & He & E)]);
      exists s'; (split; [exact Hs'|]); right;
      unfold bind, _log, emit; rewrite E.
    + left. auto.
    + right. split; [reflexivity|]. exists e. auto.
  - exists s. split; [auto|]. left. auto.
Qed.

(** The loop from its [attempt]-th pass on, when the [k]-th of the
    remaining passes is the last one: either it succeeds or the range is
    used up. *)
Lemma retry_loop_spec (retries delay : Z) :
  0 <= delay <= SLEEP_SURE ->
  forall (n : nat) (attempt : Z) (s : State) (k : nat),
    _client s <> None ->
    attempt + Z.of_nat n - 1 = retries ->
    (1 <= k <= n)%nat ->
    (forall i, (i < k - 1)%nat -> oracle (clock s + i) = false) ->
    (oracle (clock s + (k - 1)) = true \/ k = n) ->
    let run := retry_loop oracle n attempt retries delay s in
    result_of run = Ok (oracle (clock s + (k - 1))%nat) /\
    attempts_and_sleeps (events_of run) =
      retry_skeleton k delay (oracle (clock s + (k - 1))%nat) /\
    count_calls AddInstance (events_of run) = k.
Proof.
  intros Hd n. induction n as [|n IH]; intros attempt s k Hc Hn Hk Hfail Hlast.
  - lia.
  - destruct (_client s) as [c|] eqn:Ec; [clear Hc|congruence].
    cbv zeta. cbn [retry_loop]. rewrite bind_run.
    destruct (Nat.eq_dec k 1) as [->|Hk1].
    + replace (clock s + (1 - 1))%nat with (clock s) in * by lia.
      destruct (oracle (clock s)) eqn:Eo.
      * rewrite (register_once_ok s c Ec Eo). cbn. auto.
      * destruct Hlast as [?|Hlast]; [discriminate|].
        assert (n = 0%nat) by lia. subst n.
        rewrite (register_once_fail s c Ec Eo).
        replace (attempt <? retries) with false
          by (symmetry; apply Z.ltb_ge; lia).
        cbn. auto.
    + assert (Eo : oracle (clock s) = false).
      { rewrite <- (Hfail 0%nat) by lia. f_equal. lia. }
      rewrite (register_once_fail s c Ec Eo).
      replace (attempt <? retries) with true
        by (symmetry; apply Z.ltb_lt; lia).
      rewrite (sleep_sure delay Hd).
      specialize (IH (attempt + 1) (tick s) (k - 1)%nat).
      assert (Hs : (clock (tick s) + (k - 1 - 1) = clock s + (k - 1))%nat)
        by (cbn; lia).
      rewrite Hs in IH.
      destruct IH as (Hr & Hsk & Hcnt).
      * cbn. rewrite Ec. discriminate.
      * lia.
      * lia.
      * intros i Hi. cbn [clock tick].
        rewrite <- (Hfail (S i)) by lia. f_equal. lia.
      * destruct Hlast as [Hl|Hl]; [left; exact Hl|right; lia].
      * destruct (retry_loop oracle n (attempt + 1) retries delay (tick s))
          as [[r s'] evs] eqn:Er.
        unfold result_of, events_of in *. cbn in Hr, Hsk, Hcnt |- *.
        rewrite Er. cbn.
        split; [exact Hr|]. split.
        -- unfold attempts_and_sleeps in *. rewrite Hsk.
           unfold retry_skeleton.
           destruct k as [|[|k']]; [lia|lia|].
           cbn. rewrite Nat.sub_0_r. reflexivity.
        -- unfold count_calls in *. rewrite Hcnt. lia.
Qed.

(** [_init_client] when the client exists or can be built: it returns,
    the client exists afterwards, and no attempt or sleep was made. *)
Lemma init_client_ready (s : State) :
  (_client s = None -> oracle (clock s) = true) ->
  exists s1 ev0,
    _init_client oracle s = (Ok tt, s1, ev0) /\
    _client s1 <> None /\
    clock s1 = first_attempt_clock s /\
    attempts_and_sleeps ev0 = [] /\
    count_calls AddInstance ev0 = 0%nat.
Proof.
  intros H. unfold _init_client, first_attempt_clock.
  rewrite bind_run. cbn.
  destruct (_client s) as [c|] eqn:Ec.
  - exists s, []. cbn. rewrite Ec. repeat split; congruence.
  - rewrite !bind_run. cbn. rewrite (H eq_refl). cbn.
    eexists _, _. split; [reflexivity|]. cbn. repeat split; congruence.
Qed.

(** What [register_with_retry] does once it is known which pass [k] is
    the last one. *)
Lemma register_with_retry_last (retries delay : Z) (s : State) (k : nat) :
  0 <= delay <= SLEEP_SURE ->
  (_client s = None -> oracle (clock s) = true) ->
  (1 <= k)%nat -> Z.of_nat k <= retries ->
  (forall j, (1 <= j < k)%nat -> attempt_ok oracle s j = false) ->
  (attempt_ok oracle s k = true \/ Z.of_nat k = retries) ->
  let run := register_with_retry cfg oracle (Some retries) (Some delay) s in
  result_of run = Ok (attempt_ok oracle s k) /\
  attempts_and_sleeps (events_of run) =
    retry_skeleton k delay (attempt_ok oracle s k) /\
  count_calls AddInstance (events_of run) = k.
Proof.
  intros Hd Hc Hk1 Hk2 Hfail Hlast.
  destruct (init_client_ready s Hc) as (s1 & ev0 & Hi & Hc1 & Hclk & Hsk0 & Hn0).
  cbv zeta. unfold register_with_retry. rewrite bind_run, Hi.
  unfold attempt_ok in *. rewrite <- Hclk in *.
  destruct (retry_loop_spec retries delay Hd (Z.to_nat retries) 1 s1 k)
    as (Hr & Hsk & Hcnt); try lia; try assumption.
  - intros i Hi'. rewrite <- (Hfail (S i)) by lia. f_equal. lia.
  - destruct Hlast; [left; assumption|right; lia].
  - destruct (retry_loop oracle (Z.to_nat retries) 1 retries delay s1)
      as [[r s'] evs].
    unfold result_of, events_of in *. cbn in *.
    split; [exact Hr|]. split.
    + unfold attempts_and_sleeps in *. rewrite filter_app, Hsk0, Hsk.
      reflexivity.
    + unfold count_calls in *. rewrite filter_app, length_app, Hn0, Hcnt.
      reflexivity.
Qed.

(** C1.  For [retries >= 1] and a delay [time.sleep] is sure to accept
    (not negative and at most [SLEEP_SURE]), on a controller whose
    client exists or can be constructed: if every
    add-instance attempt fails, [register_with_retry] makes exactly
    [retries] attempts and returns [False]; if the [k]-th attempt
    ([k <= retries]) is the first to succeed, it makes exactly [k]
    attempts and returns [True].  In both cases the attempts and sleeps
    of the run alternate, starting and ending with an attempt: a sleep of
    [delay] separates two consecutive attempts and none follows the
    last. *)
Theorem register_with_retry_attempts (retries delay : Z) (s : State) :
  1 <= retries ->
  0 <= delay <= SLEEP_SURE ->
  (_client s = None -> oracle (clock s) = true) ->
  let run := register_with_retry cfg oracle (Some retries) (Some delay) s in
  ((forall k, (1 <= k)%nat -> Z.of_nat k <= retries ->
              attempt_ok oracle s k = false) ->
   result_of run = Ok false /\
   Z.of_nat (count_calls AddInstance (events_of run)) = retries /\
   attempts_and_sleeps (events_of run) =
     retry_skeleton (Z.to_nat retries) delay false)
  /\
  (forall k : nat,
      (1 <= k)%nat -> Z.of_nat k <= retries ->
      (forall j, (1 <= j < k)%nat -> attempt_ok oracle s j = false) ->
      attempt_ok oracle s k = true ->
      result_of run = Ok true /\
      count_calls AddInstance (events_of run) = k /\
      attempts_and_sleeps (events_of run) = retry_skeleton k delay true).
Proof.
  intros Hr Hd Hc run. split.
  - intros Hall.
    destruct (register_with_retry_last retries delay s (Z.to_nat retries))
      as (H1 & H2 & H3); try lia; try assumption.
    + intros j Hj. apply Hall; lia.
    + rewrite Hall in H1, H2 by lia.
      fold run in H1, H2, H3. rewrite H3. repeat split; try assumption. lia.
  - intros k Hk1 Hk2 Hfail Hok.
    destruct (register_with_retry_last retries delay s k)
      as (H1 & H2 & H3); try lia; try assumption.
    + left. assumption.
    + rewrite Hok in H1, H2. fold run in H1, H2, H3. auto.
Qed.

End ControllerFacts.

(** Scenario A of the retry policy (three attempts, no delay, all failing
    after the client was built), and a run whose second attempt succeeds. *)
Lemma register_with_retry_attempts_witness :
  (result_of (register_with_retry example_config (only [0%nat])
                                  (Some 3) (Some 0) fresh) = Ok false /\
   Z.of_nat (count_calls AddInstance
               (events_of (register_with_retry example_config (only [0%nat])
                                               (Some 3) (Some 0) fresh))) = 3)
  /\
  (result_of (register_with_retry example_config (only [0%nat; 2%nat])
                                  (Some 3) (Some 0) fresh) = Ok true /\
   count_calls AddInstance
     (events_of (register_with_retry example_config (only [0%nat; 2%nat])
                                     (Some 3) (Some 0) fresh)) = 2%nat).
Proof.
  split.
  - destruct (register_with_retry_attempts example_config (only [0%nat])
                3 0 fresh) as [Hall _];
      [lia|unfold SLEEP_SURE; lia|reflexivity|].
    destruct Hall as (H1 & H2 & _).
    + intros k Hk1 Hk2.
      destruct k as [|[|[|[|k]]]]; try reflexivity; lia.
    + split; [exact H1|exact H2].
  - destruct (register_with_retry_attempts example_config (only [0%nat; 2%nat])
                3 0 fresh) as [_ Hk];
      [lia|unfold SLEEP_SURE; lia|reflexivity|].
    destruct (Hk 2%nat) as (H1 & H2 & _); [lia|lia| |reflexivity|].
    + intros j Hj. assert (j = 1%nat) by lia. subst j. reflexivity.
    + split; [exact H1|exact H2].
Defined.

(** ** What registration leaves untouched; [start] *)

Lemma keeps_thread_state_refl (s : State) : keeps_thread_state s s.
Proof. unfold keeps_thread_state. tauto. Qed.

Lemma keeps_thread_state_trans (s1 s2 s3 : State) :
  keeps_thread_state s1 s2 -> keeps_thread_state s2 s3 ->
  keeps_thread_state s1 s3.
Proof.
  unfold keeps_thread_state.
  intros (A1 & A2 & A3 & A4 & A5 & A6 & A7) (B1 & B2 & B3 & B4 & B5 & B6 & B7).
  repeat split; try congruence.
  intros H. rewrite B7; [auto|]. rewrite A7; auto.
Qed.

Lemma followed_by_warning_app (a b : list Event) :
  followed_by_warning a = true -> followed_by_warning (a ++ b) = true.
Proof. destruct a as [|[] a]; cbn; auto; discriminate. Qed.

Lemma failures_logged_app (ex : ClientOp -> bool) (a b : list Event) :
  failures_logged ex a = true -> failures_logged ex b = true ->
  failures_logged ex (a ++ b) = true.
Proof.
  intros Ha Hb. induction a as [|e a IH]; [exact Hb|].
  destruct e as [op [|]| | | | | |sig [|]|]; cbn in *; auto.
  - apply andb_true_iff in Ha as [H1 H2]. apply andb_true_iff. split; auto.
    apply orb_true_iff in H1 as [H1|H1]; apply orb_true_iff; auto.
    right. apply followed_by_warning_app. exact H1.
  - apply andb_true_iff in Ha as [H1 H2]. apply andb_true_iff. split; auto.
    apply followed_by_warning_app. exact H1.
Qed.

Lemma failures_logged_weaken (ex1 ex2 : ClientOp -> bool) (evs : list Event) :
  (forall op, ex1 op = true -> ex2 op = true) ->
  failures_logged ex1 evs = true -> failures_logged ex2 evs = true.
Proof.
  intros Hex. induction evs as [|e evs IH]; [reflexivity|].
  destruct e as [op [|]| | | | | |sig [|]|]; cbn; auto.
  - intros H. apply andb_true_iff in H as [H1 H2]. apply andb_true_iff.
    split; auto. apply orb_true_iff in H1 as [H1|H1]; apply orb_true_iff; auto.
  - intros H. apply andb_true_iff in H as [H1 H2]. apply andb_true_iff. auto.
Qed.

(** Close a side goal of the frame lemmas. *)
Ltac fin :=
  first
    [ discriminate
    | congruence
    | assumption
    | reflexivity
    | solve [intros ? [= <-]; reflexivity]
    | solve [eauto using keeps_thread_state_trans, keeps_thread_state_refl]
    | solve [apply failures_logged_app; auto]
    | solve [rewrite app_nil_r; assumption]
    | solve [intros; match goal with H : _ -> _ = _ |- _ => rewrite H end; auto; congruence]
    | solve [unfold keeps_thread_state in *; intuition congruence]
    | idtac ].

Section RegistrationFrame.
Variable cfg : Config.
Variable oracle : nat -> bool.

Lemma retry_loop_facts (retries delay : Z) (n : nat) :
  forall (attempt : Z) (s : State),
    let run := retry_loop oracle n attempt retries delay s in
    registration_facts s run /\
    _client (state_of run) = _client s /\
    failures_logged no_exemption (events_of run) = true.
Proof.
  induction n as [|n IH]; intros attempt s; cbv zeta.
  - cbn. unfold registration_facts. cbn.
    repeat split; try discriminate; auto using keeps_thread_state_refl.
  - cbn [retry_loop]. rewrite bind_run.
    assert (Hstep : forall s1 ev1,
               keeps_thread_state s s1 -> _registered s1 = _registered s ->
               _client s1 = _client s ->
               forallb registration_event ev1 = true ->
               failures_logged no_exemption ev1 = true ->
               let run :=
                 match
                   ((if attempt <? retries
                     then _log LInfo (MsgRetrying attempt retries delay);;
                        sleep oracle delay
                     else ret tt);;
                    retry_loop oracle n (attempt + 1) retries delay) s1
                 with
                 | (r, s2, ev2) => (r, s2, ev1 ++ ev2)
                 end in
               registration_facts s run /\
               _client (state_of run) = _client s /\
               failures_logged no_exemption (events_of run) = true).
    { intros s1 ev1 K1 K2 K3 K4 K5. cbv zeta.
      rewrite bind_run.
      destruct (pause_cases oracle attempt retries delay s1)
        as (s' & Hs' & Hp). cbv zeta in Hp.
      assert (Q1 : keeps_thread_state s s')
        by (destruct Hs' as [->| ->];
            [assumption|unfold keeps_thread_state in *; cbn; tauto]).
      assert (Q2 : _registered s' = _registered s)
        by (destruct Hs' as [->| ->]; cbn; assumption).
      assert (Q3 : _client s' = _client s)
        by (destruct Hs' as [->| ->]; cbn; assumption).
      specialize (IH (attempt + 1) s'). cbv zeta in IH.
      destruct (retry_loop oracle n (attempt + 1) retries delay s')
        as [[r s2] ev2] eqn:Er.
      destruct IH as ((F1 & F2 & F3 & F4 & F5) & F6 & F7).
      unfold result_of, state_of, events_of in *.
      cbn in F1, F2, F3, F4, F5, F6, F7.
      destruct Hp as [(_ & -> & E)|[(_ & E)|(_ & e & He & E)]];
        rewrite E; rewrite ?Er; unfold registration_facts; cbn;
        rewrite ?forallb_app, ?K4; cbn; rewrite ?F5.
      all: repeat split; fin. }
    destruct (_client s) as [c|] eqn:Ec.
    + destruct (oracle (clock s)) eqn:Eo.
      * rewrite (register_once_ok oracle s c Ec Eo).
        unfold registration_facts, keeps_thread_state. cbn.
        repeat split; try discriminate; try congruence; auto.
      * rewrite (register_once_fail oracle s c Ec Eo).
        apply Hstep; try reflexivity.
        -- unfold keeps_thread_state. cbn. tauto.
        -- cbn. congruence.
    + rewrite (register_once_no_client oracle s Ec).
      apply Hstep; try reflexivity; auto using keeps_thread_state_refl.
Qed.

Lemma init_client_cases (s : State) :
  (_client s <> None /\ _init_client oracle s = (Ok tt, s, [])) \/
  (_client s = None /\ oracle (clock s) = true /\
   _init_client oracle s =
     (Ok tt, set_client (Some NacosClient) (tick s),
      [EvCall Construct true; EvLog LInfo MsgClientInitialized])) \/
  (_client s = None /\ oracle (clock s) = false /\
   _init_client oracle s =
     (Raise (NacosException Construct), tick s, [EvCall Construct false])).
Proof.
  unfold _init_client. rewrite bind_run. cbn.
  destruct (_client s) as [c|] eqn:Ec.
  - left. split; [discriminate|reflexivity].
  - right. exec. destruct (oracle (clock s)); [left|right]; auto.
Qed.

Lemma register_with_retry_facts (retries delay : option Z) (s : State) :
  let run := register_with_retry cfg oracle retries delay s in
  registration_facts s run /\
  (forall b, result_of run = Ok b -> _client (state_of run) <> None) /\
  (failures_logged no_exemption (events_of run) = true \/
   events_of run = [EvCall Construct false] /\
   result_of run = Raise (NacosException Construct)).
Proof.
  cbv zeta. unfold register_with_retry. rewrite bind_run.
  destruct (init_client_cases s) as [(Hc & ->)|[(Hc & Ho & ->)|(Hc & Ho & ->)]].
  - match goal with
    | |- context [retry_loop oracle ?n ?a ?r ?d s] =>
        pose proof (retry_loop_facts r d n a s) as H;
        destruct (retry_loop oracle n a r d s) as [[r0 s2] ev2]
    end.
    cbv zeta in H. destruct H as ((F1 & F2 & F3 & F4 & F5) & F6 & F7).
    unfold registration_facts. exec.
    repeat split; fin.
    all: try solve [left; assumption].
  - match goal with
    | |- context [retry_loop oracle ?n ?a ?r ?d ?s1] =>
        pose proof (retry_loop_facts r d n a s1) as H;
        destruct (retry_loop oracle n a r d s1) as [[r0 s2] ev2]
    end.
    cbv zeta in H. destruct H as ((F1 & F2 & F3 & F4 & F5) & F6 & F7).
    unfold registration_facts, keeps_thread_state in *. exec.
    repeat split; fin.
    all: try solve [left; assumption].
  - unfold registration_facts, keeps_thread_state. exec.
    repeat split; fin.
    all: try solve [right; auto].
Qed.

Lemma init_client_absorbed {B : Type} (retries delay : option Z)
      (k : bool -> M B) (s : State) :
  (_init_client oracle ;;
   (ok <- register_with_retry cfg oracle retries delay ;; k ok)) s =
  (ok <- register_with_retry cfg oracle retries delay ;; k ok) s.
Proof.
  unfold register_with_retry.
  rewrite !bind_run.
  destruct (init_client_cases s) as [(Hc & E)|[(Hc & Ho & E)|(Hc & Ho & E)]];
    rewrite E.
  - rewrite !bind_run, E. cbn.
    destruct (retry_loop _ _ _ _ _ s) as [[[] ?] ?]; cbn; [|reflexivity].
    destruct (k a s0) as [[? ?] ?]. reflexivity.
  - rewrite !bind_run.
    destruct (init_client_cases (set_client (Some NacosClient) (tick s)))
      as [(Hc' & E')|[(Hc' & _)|(Hc' & _)]]; try discriminate Hc'.
    rewrite E'. cbn.
    destruct (retry_loop _ _ _ _ _ _) as [[[] ?] ?]; cbn; [|reflexivity].
    destruct (k a s0) as [[? ?] ?]. reflexivity.
  - reflexivity.
Qed.

Lemma registration_events_spawn (evs : list Event) :
  forallb registration_event evs = true -> spawned evs = false.
Proof.
  unfold spawned. induction evs as [|e evs IH]; [reflexivity|]. cbn.
  intros H. apply andb_true_iff in H as [H1 H2].
  rewrite (IH H2). destruct e; try discriminate; reflexivity.
Qed.

Lemma spawned_app (a b : list Event) :
  spawned (a ++ b) = spawned a || spawned b.
Proof. apply existsb_app. Qed.

(** C5.  [start] on a controller that is not registered yet.  The
    heartbeat thread is spawned if and only if [register_with_retry]
    with the configured defaults returns [True] and the instance is
    ephemeral; the thread handle is then stored and the stop event
    cleared.  When registration gives up, [start] returns normally after
    one more line, the error, with [_registered] still false and no
    thread. *)
Theorem start_spawns_iff (s : State) :
  _registered s = false ->
  let reg := register_with_retry cfg oracle None None s in
  let run := start cfg oracle s in
  (spawned (events_of run) = true <->
   result_of reg = Ok true /\ ephemeral cfg = true) /\
  (spawned (events_of run) = true ->
   _heartbeat_thread (state_of run) = Some HeartbeatThread /\
   _heartbeat_stop (state_of run) = false) /\
  (result_of reg = Ok false ->
   result_of run = Ok tt /\
   events_of run = events_of reg ++ [EvLog LError MsgRegistrationGaveUp] /\
   _registered (state_of run) = false /\
   _heartbeat_thread (state_of run) = _heartbeat_thread s /\
   spawned (events_of run) = false).
Proof.
  intros Hreg. cbv zeta. unfold start. rewrite init_client_absorbed.
  rewrite bind_run.
  pose proof (register_with_retry_facts None None s) as H. cbv zeta in H.
  destruct (register_with_retry cfg oracle None None s) as [[r s1] ev1].
  destruct H as ((F1 & F2 & F3 & F4 & F5) & F6 & F7).
  pose proof (registration_events_spawn _ F5) as Hsp.
  unfold keeps_thread_state in F1. unfold spawned in *. exec.
  destruct r as [[|]|e]; [destruct (ephemeral cfg) eqn:Ee|..]; cbn;
    rewrite ?existsb_app, ?Hsp; cbn.
  all: repeat split; intros; fin.
  all: try solve [intuition (try discriminate; congruence)].
  all: try solve [rewrite F2; [assumption|discriminate]].
Qed.
End RegistrationFrame.

(** Scenario A, and a start that succeeds at once. *)
Lemma start_spawns_iff_witness :
  (result_of (start scenario_a_config (only [0%nat]) fresh) = Ok tt /\
   _registered (state_of (start scenario_a_config (only [0%nat]) fresh))
     = false /\
   spawned (events_of (start scenario_a_config (only [0%nat]) fresh))
     = false) /\
  spawned (events_of (start example_config always fresh)) = true.
Proof.
  split.
  - destruct (start_spawns_iff scenario_a_config (only [0%nat]) fresh eq_refl)
      as (_ & _ & H).
    destruct (H eq_refl) as (H1 & _ & H3 & _ & H5).
    repeat split; assumption.
  - destruct (start_spawns_iff example_config always fresh eq_refl)
      as (H & _).
    apply H. split; reflexivity.
Defined.

(** ** The heartbeat loop *)

Lemma counter_follows_sends_app (a b : list Event) :
  forall c m,
    counter_follows_sends c m (a ++ b) =
    counter_follows_sends c m a &&
    counter_follows_sends (replay_counter c a) (fold_left streak_step a m) b.
Proof.
  unfold replay_counter.
  induction a as [|e a IH]; intros c m; [reflexivity|].
  cbn. rewrite IH, andb_assoc. reflexivity.
Qed.

Lemma counter_follows_quiet (evs : list Event) :
  heartbeat_failed evs = false ->
  forall c m, counter_follows_sends c m evs = true.
Proof.
  unfold heartbeat_failed.
  induction evs as [|e evs IH]; intros H c m; [reflexivity|].
  cbn in H. apply orb_false_iff in H as [H1 H2].
  cbn. rewrite (IH H2).
  destruct e as [| [] []| | | | | |]; try discriminate; reflexivity.
Qed.

Section HeartbeatFacts.
Variable cfg : Config.
Variable oracle : nat -> bool.

Lemma stop_wait_spec (timeout : Z) (s : State) :
  exists r s1,
    stop_wait oracle timeout s = (r, s1, []) /\
    (r = Ok true /\ _heartbeat_stop s1 = true \/
     r = Ok false /\ _heartbeat_stop s1 = false /\ timeout <= TIMEOUT_MAX \/
     r = Raise OverflowError /\ _heartbeat_stop s1 = false /\
     TIMEOUT_MAX < timeout) /\
    (_heartbeat_stop s = true -> r = Ok true /\ s1 = s) /\
    _client s1 = _client s /\
    _registered s1 = _registered s /\
    _heartbeat_thread s1 = _heartbeat_thread s.
Proof.
  destruct s as [c th st rg oi ot hi ht clk]. unfold stop_wait.
  destruct st; exec_goal.
  - eexists _, _. split; [reflexivity|]. cbn. repeat split; auto.
  - destruct (oracle clk); cbn.
    + eexists _, _. split; [reflexivity|]. cbn.
      repeat split; auto; discriminate.
    + destruct (TIMEOUT_MAX <? timeout) eqn:E; cbn;
        eexists _, _; (split; [reflexivity|]); cbn.
      * apply Z.ltb_lt in E. split; [auto|]. repeat split; discriminate.
      * apply Z.ltb_ge in E. split; [auto|]. repeat split; discriminate.
Qed.

Lemma remove_ignoring_errors_spec (s : State) :
  let rm := remove_ignoring_errors oracle s in
  result_of rm = Ok tt /\
  keeps_thread_state s (state_of rm) /\
  _registered (state_of rm) = _registered s /\
  _client (state_of rm) = _client s /\
  (events_of rm = [] \/ exists ok, events_of rm = [EvCall RemoveInstance ok]).
Proof.
  destruct s as [c th st rg oi ot hi ht clk].
  unfold remove_ignoring_errors, keeps_thread_state.
  destruct c as [[]|]; exec; [destruct (oracle clk)|]; cbn;
    repeat split; eauto.
Qed.

Lemma self_heal_spec (fail_count : Z) (s : State) :
  let rm := remove_ignoring_errors oracle s in
  let reg := register_with_retry cfg oracle None None (state_of rm) in
  let run := self_heal cfg oracle fail_count s in
  result_of rm = Ok tt /\
  state_of run = state_of reg /\
  result_of run =
    Ok (match result_of reg with Ok true => 0 | _ => fail_count end) /\
  events_of run =
    EvLog LWarning MsgSelfHealing
    :: events_of rm ++ events_of reg ++ healing_outcome_log (result_of reg).
Proof.
  cbv zeta. unfold self_heal.
  pose proof (remove_ignoring_errors_spec s) as Hrm. cbv zeta in Hrm.
  destruct Hrm as (R1 & _).
  pose proof (register_with_retry_facts cfg oracle None None
                (state_of (remove_ignoring_errors oracle s))) as H.
  cbv zeta in H. destruct H as ((_ & _ & _ & F4 & _) & _).
  exec.
  destruct (remove_ignoring_errors oracle s) as [[r0 s0] ev0].
  cbn in *. subst r0.
  destruct (register_with_retry cfg oracle None None s0) as [[r s1] ev1].
  cbn in *. destruct r as [[|]|e]; cbn.
  - repeat split.
  - repeat split.
  - rewrite (F4 e eq_refl). cbn. rewrite <- !app_assoc. repeat split.
Qed.

Lemma heartbeat_iteration_cases (c : Z) (s : State) :
  exists r1 s1,
    stop_wait oracle (heartbeat_interval cfg) s = (r1, s1, []) /\
    let run := heartbeat_iteration cfg oracle c s in
    match r1 with
    | Raise e => run = (Raise e, s1, [])
    | Ok true => run = (Ok (Break, c), s1, [])
    | Ok false =>
        if negb (ephemeral cfg) then run = (Ok (Continue, c), s1, [])
        else if call_returns oracle s1 then
          run = (Ok (Continue, 0), tick s1, [EvCall SendHeartbeat true])
        else
          let s2 := match _client s1 with Some _ => tick s1 | None => s1 end in
          let failure :=
            send_failure_events (c + 1) (heartbeat_max_failures cfg) s1 in
          exists r2 s3,
            stop_wait oracle (heartbeat_retry_delay cfg) s2 = (r2, s3, []) /\
            match r2 with
            | Raise e => run = (Raise e, s3, failure)
            | Ok true => run = (Ok (Break, c + 1), s3, failure)
            | Ok false =>
                if heartbeat_max_failures cfg <=? c + 1 then
                  let heal := self_heal cfg oracle (c + 1) s3 in
                  exists c',
                    result_of heal = Ok c' /\
                    run = (Ok (Continue, c'), state_of heal,
                           failure ++ events_of heal)
                else run = (Ok (Continue, c + 1), s3, failure)
            end
    end.
Proof.
  destruct (stop_wait_spec (heartbeat_interval cfg) s)
    as (r1 & s1 & E1 & _).
  exists r1, s1. split; [exact E1|]. cbv zeta.
  unfold heartbeat_iteration. rewrite bind_run, E1.
  destruct r1 as [[|]|e]; [reflexivity| |reflexivity].
  destruct (negb (ephemeral cfg)); [reflexivity|].
  pose proof (stop_wait_spec (heartbeat_retry_delay cfg)) as W.
  pose proof (fun s => proj1 (proj2 (proj2 (self_heal_spec (c + 1) s)))) as Hh.
  cbv zeta in Hh.
  remember (stop_wait oracle (heartbeat_retry_delay cfg)) as wait2.
  remember (self_heal cfg oracle (c + 1)) as heal.
  unfold call_returns, send_failure_events.
  destruct (_client s1) as [cl|] eqn:Ec.
  - destruct (oracle (clock s1)) eqn:Eo.
    + exec_goal. rewrite Ec, Eo. reflexivity.
    + destruct (W (tick s1)) as (r2 & s3 & E2 & Hr2 & _).
      exists r2, s3. split; [exact E2|].
      exec_goal. rewrite Ec, Eo, E2. cbn.
      destruct r2 as [[|]|e];
        [reflexivity| |reflexivity].
      destruct (heartbeat_max_failures cfg <=? c + 1); [|reflexivity].
      specialize (Hh s3). destruct (heal s3) as [[r s4] ev4].
      unfold result_of in Hh. cbn in Hh. subst r.
      eexists. split; [reflexivity|]. cbn. rewrite ?app_nil_r. reflexivity.
  - destruct (W s1) as (r2 & s3 & E2 & _).
    exists r2, s3. split; [exact E2|].
    exec_goal. rewrite Ec, E2. cbn.
    destruct r2 as [[|]|e];
      [reflexivity| |reflexivity].
    destruct (heartbeat_max_failures cfg <=? c + 1); [|reflexivity].
    specialize (Hh s3). destruct (heal s3) as [[r s4] ev4].
    unfold result_of in Hh. cbn in Hh. subst r.
    eexists. split; [reflexivity|]. cbn. rewrite ?app_nil_r. reflexivity.
Qed.


Lemma registration_events_quiet (evs : list Event) :
  forallb registration_event evs = true ->
  self_healing_invoked evs = false /\
  heartbeat_failed evs = false /\
  forall n, replay_counter n evs = n.
Proof.
  unfold self_healing_invoked, heartbeat_failed, replay_counter.
  induction evs as [|e evs IH]; cbn; [auto|].
  intros H. apply andb_true_iff in H as [H1 H2].
  destruct (IH H2) as (I1 & I2 & I3). rewrite I1, I2.
  destruct e as [[] ?|[] []| | | | | |]; try discriminate; cbn; auto.
Qed.

(** What the self-healing block leaves behind, for the loop around it. *)
Lemma self_heal_facts (fail_count : Z) (s : State) :
  let run := self_heal cfg oracle fail_count s in
  exists c',
    result_of run = Ok c' /\
    replay_counter fail_count (events_of run) = c' /\
    self_healing_invoked (events_of run) = true /\
    heartbeat_failed (events_of run) = false /\
    _heartbeat_stop (state_of run) = _heartbeat_stop s /\
    (_client s <> None -> _client (state_of run) <> None) /\
    failures_logged (is_call_of RemoveInstance) (events_of run) = true.
Proof.
  destruct (self_heal_spec fail_count s) as (_ & Hs & Hr & He).
  destruct (remove_ignoring_errors_spec s) as (_ & K & _ & Kc & Kev).
  cbv zeta.
  pose proof (register_with_retry_facts cfg oracle None None
                (state_of (remove_ignoring_errors oracle s))) as H.
  cbv zeta in H. destruct H as ((F1 & _ & _ & _ & F5) & _ & F7).
  destruct (registration_events_quiet _ F5) as (Q1 & Q2 & Q3).
  eexists. split; [exact Hr|]. rewrite He, Hs.
  set (rm := remove_ignoring_errors oracle s) in *.
  set (reg := register_with_retry cfg oracle None None (state_of rm)) in *.
  assert (Hrm : self_healing_invoked (events_of rm) = false /\
                heartbeat_failed (events_of rm) = false /\
                (forall n, replay_counter n (events_of rm) = n) /\
                failures_logged (is_call_of RemoveInstance) (events_of rm) = true).
  { destruct Kev as [->|[ok ->]]; [|destruct ok]; repeat split. }
  destruct Hrm as (M1 & M2 & M3 & M4).
  unfold self_healing_invoked, heartbeat_failed, replay_counter in *.
  repeat split.
  - cbn. rewrite !fold_left_app, M3, Q3.
    destruct (result_of reg) as [[|]|e]; reflexivity.
  - cbn. rewrite !existsb_app, M2, Q2.
    destruct (result_of reg) as [[|]|e]; reflexivity.
  - unfold keeps_thread_state in *. intuition congruence.
  - unfold keeps_thread_state in *. intros Hc.
    destruct F1 as (_ & _ & _ & _ & _ & _ & F1). rewrite F1; congruence.
  - change (failures_logged (is_call_of RemoveInstance)
              ([EvLog LWarning MsgSelfHealing] ++ events_of rm ++
               events_of reg ++ healing_outcome_log (result_of reg)) = true).
    apply failures_logged_app; [reflexivity|].
    apply failures_logged_app; [exact M4|].
    destruct F7 as [F7|[F7 F8]].
    + apply failures_logged_app.
      * apply (failures_logged_weaken no_exemption); [discriminate|exact F7].
      * destruct (result_of reg) as [[|]|e]; reflexivity.
    + rewrite F7, F8. reflexivity.
Qed.

(** How a pass ends: normally, or with the [OverflowError] of a wait
    whose timeout is above [TIMEOUT_MAX]. *)
Lemma heartbeat_iteration_facts (c : Z) (s : State) :
  let run := heartbeat_iteration cfg oracle c s in
  (result_of run = Raise OverflowError /\
   _heartbeat_stop (state_of run) = false /\
   (TIMEOUT_MAX < heartbeat_interval cfg \/
    TIMEOUT_MAX < heartbeat_retry_delay cfg)
   \/
   exists ctl c',
     result_of run = Ok (ctl, c') /\
     (ctl = Break -> _heartbeat_stop (state_of run) = true) /\
     (_client s <> None -> replay_counter c (events_of run) = c')) /\
  (_heartbeat_stop s = true -> state_of run = s) /\
  failures_logged (is_call_of RemoveInstance) (events_of run) = true /\
  (_client s <> None -> _client (state_of run) <> None).
Proof.
  destruct (heartbeat_iteration_cases c s) as (r1 & s1 & E1 & H).
  destruct (stop_wait_spec (heartbeat_interval cfg) s)
    as (r1' & s1' & E1' & W1 & W2 & W3 & _).
  rewrite E1 in E1'. injection E1' as <- <-.
  cbv zeta in H |- *.
  destruct W1 as [(-> & W1)|[(-> & W1 & Wb)|(-> & W1 & Wb)]].
  { rewrite H. split; [right; eexists _, _; cbn; repeat split; auto|].
    cbn. repeat split; try congruence.
    intros Hs. destruct (W2 Hs) as [_ ->]. reflexivity. }
  2:{ rewrite H. split; [left; cbn; auto|].
      cbn. repeat split; try congruence.
      intros Hs. destruct (W2 Hs) as [? _]. discriminate. }
  assert (Hns : _heartbeat_stop s = true -> False).
  { intros Hs. destruct (W2 Hs) as [? _]. discriminate. }
  destruct (negb (ephemeral cfg)).
  { rewrite H. split; [right; eexists _, _; cbn; repeat split; auto; discriminate|].
    cbn. repeat split; try tauto; congruence. }
  unfold call_returns, send_failure_events in H.
  destruct (_client s1) as [cl|] eqn:Ec.
  - destruct (oracle (clock s1)).
    { rewrite H.
      split; [right; eexists _, _; cbn; repeat split; auto; discriminate|].
      cbn. repeat split; try tauto; congruence. }
    destruct H as (r2 & s3 & E2 & H).
    destruct (stop_wait_spec (heartbeat_retry_delay cfg) (tick s1))
      as (r2' & s3' & E2' & V1 & V2 & V3 & _).
    rewrite E2 in E2'. injection E2' as <- <-.
    destruct V1 as [(-> & V1)|[(-> & V1 & Vb)|(-> & V1 & Vb)]].
    + rewrite H.
      split; [right; eexists _, _; cbn; repeat split; auto|].
      cbn. repeat split; try tauto; cbn in *; congruence.
    + destruct (heartbeat_max_failures cfg <=? c + 1).
      * destruct H as (c' & Hr & ->).
        destruct (self_heal_facts (c + 1) s3)
          as (c'' & G1 & G2 & _ & _ & G5 & G6 & G7).
        rewrite Hr in G1. injection G1 as <-.
        unfold result_of, state_of, events_of in *. cbn [fst snd] in *.
        split; [right; eexists _, _; split; [reflexivity|]|].
        -- split; [discriminate|]. intros _.
           unfold replay_counter in *. rewrite fold_left_app. cbn. exact G2.
        -- split; [tauto|]. split.
           ++ apply failures_logged_app; [reflexivity|exact G7].
           ++ intros _. apply G6. cbn in V3. congruence.
      * rewrite H.
        split; [right; eexists _, _; cbn; repeat split; auto; discriminate|].
        cbn. repeat split; try tauto; cbn in *; congruence.
    + rewrite H. split; [left; cbn; auto|].
      cbn. repeat split; try tauto; cbn in *; congruence.
  - destruct H as (r2 & s3 & E2 & H).
    destruct (stop_wait_spec (heartbeat_retry_delay cfg) s1)
      as (r2' & s3' & E2' & V1 & V2 & V3 & _).
    rewrite E2 in E2'. injection E2' as <- <-.
    destruct V1 as [(-> & V1)|[(-> & V1 & Vb)|(-> & V1 & Vb)]].
    + rewrite H.
      split; [right; eexists _, _; cbn; repeat split; auto; congruence|].
      cbn. repeat split; try tauto; cbn in *; congruence.
    + destruct (heartbeat_max_failures cfg <=? c + 1).
      * destruct H as (c' & Hr & ->).
        destruct (self_heal_facts (c + 1) s3)
          as (c'' & G1 & G2 & _ & _ & G5 & G6 & G7).
        unfold result_of, state_of, events_of in *. cbn [fst snd] in *.
        split; [right; eexists _, _; split; [reflexivity|]|].
        -- split; [discriminate|congruence].
        -- split; [tauto|]. split.
           ++ apply failures_logged_app; [reflexivity|exact G7].
           ++ congruence.
      * rewrite H.
        split; [right; eexists _, _; cbn; repeat split; auto;
                try discriminate; congruence|].
        cbn. repeat split; try tauto; cbn in *; congruence.
    + rewrite H. split; [left; cbn; auto|].
      cbn. repeat split; try tauto; cbn in *; congruence.
Qed.


Lemma heartbeat_loop_facts (fuel : nat) :
  forall (c : Z) (s : State),
    let run := heartbeat_loop_from cfg oracle fuel c s in
    (result_of run = Raise OverflowError /\
     _heartbeat_stop (state_of run) = false /\
     (TIMEOUT_MAX < heartbeat_interval cfg \/
      TIMEOUT_MAX < heartbeat_retry_delay cfg)
     \/
     exists status c',
       result_of run = Ok (status, c') /\
       (status = Exited -> _heartbeat_stop (state_of run) = true) /\
       (_client s <> None -> replay_counter c (events_of run) = c')) /\
    (_heartbeat_stop s = true -> state_of run = s) /\
    failures_logged (is_call_of RemoveInstance) (events_of run) = true /\
    (_client s <> None -> _client (state_of run) <> None).
Proof.
  induction fuel as [|fuel IH]; intros c s; cbv zeta.
  - cbn. split; [right; eexists _, _; repeat split; auto; discriminate|].
    repeat split; auto.
  - cbn [heartbeat_loop_from]. rewrite bind_run. unfold gets.
    destruct (_heartbeat_stop s) eqn:Es; cbv beta iota.
    + cbn. split; [right; eexists _, _; repeat split; auto|].
      repeat split; auto.
    + rewrite bind_run.
      destruct (heartbeat_iteration_facts c s) as (I1 & _ & I3 & I4).
      destruct (heartbeat_iteration cfg oracle c s) as [[r s1] ev1].
      unfold result_of, state_of, events_of in I1, I3, I4.
      cbn [fst snd] in I1, I3, I4.
      destruct I1 as [(-> & I1 & I2)|(ctl & c1 & -> & I1 & I2)].
      { cbn. split; [left; auto|]. repeat split; auto; discriminate. }
      destruct ctl.
      * cbn. rewrite app_nil_r.
        split; [right; eexists _, _; split; [reflexivity|]; cbn; auto|].
        cbn. repeat split; try assumption; discriminate.
      * destruct (IH c1 s1) as (J1 & _ & J3 & J4).
        destruct (heartbeat_loop_from cfg oracle fuel c1 s1) as [[r2 s2] ev2].
        unfold result_of, state_of, events_of in *.
        cbn [fst snd app] in J1, J3, J4 |- *.
        split; [|split; [discriminate|split]].
        -- destruct J1 as [(-> & J1 & J2)|(st & c2 & -> & J1 & J2)].
           ++ left. auto.
           ++ right. eexists _, _. split; [reflexivity|].
              split; [exact J1|]. intros Hc.
              unfold replay_counter in *.
              rewrite fold_left_app. specialize (I2 Hc). rewrite I2.
              apply J2. apply I4. exact Hc.
        -- apply failures_logged_app; assumption.
        -- intros Hc. apply J4. apply I4. exact Hc.
Qed.

Lemma replay_below_streak (evs : list Event) :
  forall n m : Z,
    0 <= n <= m ->
    0 <= replay_counter n evs <= fold_left streak_step evs m.
Proof.
  unfold replay_counter.
  induction evs as [|e evs IH]; intros n m H; cbn; [exact H|].
  apply IH.
  destruct e as [[] []|[] []| | | | | |]; cbn; lia.
Qed.

Lemma heartbeat_iteration_follows (c m : Z) (s : State) :
  _client s <> None ->
  0 <= c <= m ->
  counter_follows_sends c m
    (events_of (heartbeat_iteration cfg oracle c s)) = true.
Proof.
  intros Hc Hm.
  destruct (heartbeat_iteration_cases c s) as (r1 & s1 & E1 & H).
  destruct (stop_wait_spec (heartbeat_interval cfg) s)
    as (r1' & s1' & E1' & _ & _ & W3 & _).
  rewrite E1 in E1'. injection E1' as <- <-.
  cbv zeta in H.
  destruct r1 as [[|]|e]; [rewrite H; reflexivity| |rewrite H; reflexivity].
  destruct (negb (ephemeral cfg)); [rewrite H; reflexivity|].
  unfold call_returns, send_failure_events in H.
  destruct (_client s1) as [cl|] eqn:Ec; [|congruence].
  destruct (oracle (clock s1)); [rewrite H; reflexivity|].
  destruct H as (r2 & s3 & E2 & H).
  assert (Hf : forall tail,
             heartbeat_failed tail = false ->
             counter_follows_sends c m
               ([EvCall SendHeartbeat false;
                 EvLog LWarning
                   (MsgHeartbeatFailed (c + 1) (heartbeat_max_failures cfg)
                      (NacosException SendHeartbeat));
                 EvLog LDebug MsgTraceback] ++ tail) = true).
  { intros tail Ht. cbn.
    rewrite Z.eqb_refl, (counter_follows_quiet tail Ht).
    replace (c + 1 <=? m + 1) with true by (symmetry; apply Z.leb_le; lia).
    reflexivity. }
  destruct r2 as [[|]|e];
    [|destruct (heartbeat_max_failures cfg <=? c + 1)|].
  - rewrite H. apply (Hf []). reflexivity.
  - destruct H as (c' & _ & ->).
    destruct (self_heal_facts (c + 1) s3) as (_ & _ & _ & _ & G4 & _).
    apply Hf. exact G4.
  - rewrite H. apply (Hf []). reflexivity.
  - rewrite H. apply (Hf []). reflexivity.
Qed.

Lemma heartbeat_loop_follows (fuel : nat) :
  forall (c m : Z) (s : State),
    _client s <> None ->
    0 <= c <= m ->
    counter_follows_sends c m
      (events_of (heartbeat_loop_from cfg oracle fuel c s)) = true.
Proof.
  induction fuel as [|fuel IH]; intros c m s Hc Hm; [reflexivity|].
  cbn [heartbeat_loop_from]. rewrite bind_run. unfold gets.
  destruct (_heartbeat_stop s) eqn:Es; cbv beta iota; [reflexivity|].
  rewrite bind_run.
  pose proof (heartbeat_iteration_follows c m s Hc Hm) as F.
  destruct (heartbeat_iteration_facts c s) as (I1 & _ & _ & I4).
  specialize (I4 Hc).
  destruct (heartbeat_iteration cfg oracle c s) as [[r s1] ev1].
  unfold result_of, state_of, events_of in *. cbn [fst snd] in *.
  destruct I1 as [(-> & _)|(ctl & c1 & -> & _ & I5)]; [exact F|].
  specialize (I5 Hc). destruct ctl.
  - cbn. rewrite app_nil_r. exact F.
  - specialize (IH c1 (fold_left streak_step ev1 m) s1 I4).
    destruct (heartbeat_loop_from cfg oracle fuel c1 s1) as [[r2 s2] ev2].
    cbn [fst snd] in *. cbn.
    rewrite counter_follows_sends_app, F, I5. cbn. apply IH.
    rewrite <- I5. apply replay_below_streak. exact Hm.
Qed.

(** C4.  In the heartbeat loop of a controller that has its client,
    after any number of passes the failure counter is what the events
    dictate: zero after a heartbeat that was sent, one more after each
    send that failed, zero after a successful self-healing.  Every value
    it takes after a failed send, and the value it has in the end, is at
    most the number of sends that failed in a row since the last
    successful one, so it reaches [heartbeat_max_failures] only after that
    many consecutive failures.  The loop returns the counter unless a
    wait raises [OverflowError], which needs [heartbeat_interval] or
    [heartbeat_retry_delay] above [TIMEOUT_MAX]. *)
Theorem heartbeat_counter_consecutive (fuel : nat) (s : State) :
  _client s <> None ->
  let run := _heartbeat_loop cfg oracle fuel s in
  counter_follows_sends 0 0 (events_of run) = true /\
  0 <= replay_counter 0 (events_of run) <= failure_streak (events_of run) /\
  (forall status c,
      result_of run = Ok (status, c) ->
      c = replay_counter 0 (events_of run)) /\
  (result_of run = Raise OverflowError \/
   exists status c, result_of run = Ok (status, c)) /\
  (heartbeat_interval cfg <= TIMEOUT_MAX ->
   heartbeat_retry_delay cfg <= TIMEOUT_MAX ->
   exists status c, result_of run = Ok (status, c)).
Proof.
  intros Hc. cbv zeta. unfold _heartbeat_loop.
  destruct (heartbeat_loop_facts fuel 0 s) as (H1 & _ & _ & _).
  split; [apply heartbeat_loop_follows; [exact Hc|lia]|].
  split; [apply replay_below_streak; lia|].
  destruct H1 as [(H1 & _ & Hb)|(st & c & H1 & _ & H2)].
  - rewrite H1. split; [discriminate|]. split; [left; reflexivity|]. lia.
  - rewrite H1. split; [|split; [right|]; eauto].
    intros st' c' [= <- <-]. symmetry. apply H2. exact Hc.
Qed.


(** C3, as the code has it.  A pass of the heartbeat loop enters
    self-healing if and only if the heartbeat send failed, the retry
    wait that follows neither was ended by the stop event nor raised
    (the event is still unset when the pass ends, and
    [heartbeat_retry_delay] is at most [TIMEOUT_MAX]), and the counter,
    just incremented, has reached [heartbeat_max_failures]; the pass
    then goes on to the next one with the counter self-healing returns.
    A pass ends normally or with the [OverflowError] of a wait.
    Self-healing is one bare remove-instance call whose failure is
    passed over, not [_remove_once], then [register_with_retry] with the
    configured defaults; its result is zero when that returned [True]
    and the unchanged counter when it returned [False] or raised. *)
Theorem self_healing_iff :
  (forall (c : Z) (s : State),
      let run := heartbeat_iteration cfg oracle c s in
      (self_healing_invoked (events_of run) = true <->
       heartbeat_failed (events_of run) = true /\
       _heartbeat_stop (state_of run) = false /\
       heartbeat_retry_delay cfg <= TIMEOUT_MAX /\
       heartbeat_max_failures cfg <= c + 1) /\
      (self_healing_invoked (events_of run) = true ->
       exists s0 pre c',
         let heal := self_heal cfg oracle (c + 1) s0 in
         self_healing_invoked pre = false /\
         events_of run = pre ++ events_of heal /\
         result_of heal = Ok c' /\
         result_of run = Ok (Continue, c') /\
         state_of run = state_of heal) /\
      (result_of run = Raise OverflowError \/
       exists ctl c', result_of run = Ok (ctl, c')))
  /\
  (forall (c : Z) (s : State),
      let rm := remove_ignoring_errors oracle s in
      let reg := register_with_retry cfg oracle None None (state_of rm) in
      let heal := self_heal cfg oracle c s in
      result_of rm = Ok tt /\
      count_calls RemoveInstance (events_of rm) = client_calls_of s /\
      state_of heal = state_of reg /\
      result_of heal =
        Ok (match result_of reg with Ok true => 0 | _ => c end) /\
      events_of heal =
        EvLog LWarning MsgSelfHealing
        :: events_of rm ++ events_of reg
           ++ healing_outcome_log (result_of reg)).
Proof.
  split.
  - intros c s. cbv zeta.
    destruct (heartbeat_iteration_cases c s) as (r1 & s1 & E1 & H).
    destruct (stop_wait_spec (heartbeat_interval cfg) s)
      as (r1' & s1' & E1' & W1 & _).
    rewrite E1 in E1'. injection E1' as <- <-.
    cbv zeta in H.
    destruct W1 as [(-> & W1)|[(-> & W1 & Wb)|(-> & W1 & Wb)]];
      [rewrite H; cbn; split; [intuition discriminate|];
       split; [discriminate|eauto]
      |
      |rewrite H; cbn; split; [intuition discriminate|];
       split; [discriminate|eauto]].
    destruct (negb (ephemeral cfg));
      [rewrite H; cbn; split; [intuition discriminate|];
       split; [discriminate|eauto]|].
    destruct (call_returns oracle s1);
      [rewrite H; cbn; split; [intuition discriminate|];
       split; [discriminate|eauto]|].
    destruct H as (r2 & s3 & E2 & H).
    assert (Hf : heartbeat_failed
                   (send_failure_events (c + 1) (heartbeat_max_failures cfg) s1)
                 = true /\
                 self_healing_invoked
                   (send_failure_events (c + 1) (heartbeat_max_failures cfg) s1)
                 = false).
    { unfold send_failure_events. destruct (_client s1); split; reflexivity. }
    destruct Hf as [Hf1 Hf2].
    match type of E2 with
    | stop_wait _ _ ?s2 = _ =>
        destruct (stop_wait_spec (heartbeat_retry_delay cfg) s2)
          as (r2' & s3' & E2' & V1 & _)
    end.
    rewrite E2 in E2'. injection E2' as <- <-.
    destruct V1 as [(-> & V1)|[(-> & V1 & Vb)|(-> & V1 & Vb)]].
    { rewrite H. unfold result_of, events_of, state_of. cbn [fst snd].
      rewrite Hf1, Hf2, V1.
      split; [intuition discriminate|]. split; [discriminate|eauto]. }
    2:{ rewrite H. unfold result_of, events_of, state_of. cbn [fst snd].
        rewrite Hf1, Hf2.
        split; [|split; [discriminate|auto]].
        split; [discriminate|]. intros (_ & _ & ? & _). lia. }
    destruct (heartbeat_max_failures cfg <=? c + 1) eqn:Emax.
    + destruct H as (c' & Hr & ->).
      destruct (self_heal_facts (c + 1) s3)
        as (c'' & G1 & _ & G3 & G4 & G5 & _).
      unfold result_of, events_of, state_of in *. cbn [fst snd] in *.
      unfold self_healing_invoked, heartbeat_failed in *.
      rewrite !existsb_app, Hf1, G3, orb_true_r. cbn [orb].
      apply Z.leb_le in Emax.
      split; [|split; [|eauto]].
      * split; [|reflexivity]. intros _. rewrite G5, V1. auto.
      * intros _. exists s3. eexists _, c'.
        repeat split; [exact Hf2|exact Hr].
    + rewrite H. unfold result_of, events_of, state_of. cbn [fst snd].
      rewrite Hf1, Hf2.
      apply Z.leb_gt in Emax.
      split; [|split; [discriminate|eauto]].
      split; [discriminate|]. intros (_ & _ & _ & ?). lia.
  - intros c s. cbv zeta.
    destruct (self_heal_spec c s) as (H1 & H2 & H3 & H4).
    repeat split; try assumption.
    destruct s as [cl th st rg oi ot hi ht clk].
    unfold remove_ignoring_errors, client_calls_of.
    destruct cl as [[]|]; exec; [destruct (oracle clk)|]; reflexivity.
Qed.

End HeartbeatFacts.

(** A controller whose client exists, as [start] leaves it. *)
Lemma heartbeat_counter_consecutive_witness :
  counter_follows_sends
    0 0 (events_of (_heartbeat_loop example_config (only []) 3 started))
  = true /\
  (exists status c,
      result_of (_heartbeat_loop example_config (only []) 3 started)
      = Ok (status, c)).
Proof.
  destruct (heartbeat_counter_consecutive example_config (only []) 3 started)
    as (H1 & _ & _ & _ & H5).
  - discriminate.
  - split; [exact H1|]. apply H5; vm_compute; discriminate.
Defined.

(** C3 as stated fails: with [heartbeat_max_failures = 1], a heartbeat
    that fails brings the counter to the maximum, and the stop event,
    set during the retry wait, ends the pass before self-healing.  And
    the remove of self-healing is the bare SDK call: where [_remove_once]
    clears [_registered], it leaves the flag as it was. *)
Lemma threshold_reached_without_self_healing :
  events_of (heartbeat_iteration healing_config (only [4%nat]) 0 started) =
    [EvCall SendHeartbeat false;
     EvLog LWarning (MsgHeartbeatFailed 1 1 (NacosException SendHeartbeat));
     EvLog LDebug MsgTraceback] /\
  result_of (heartbeat_iteration healing_config (only [4%nat]) 0 started)
  = Ok (Break, 1) /\
  _registered (state_of (remove_ignoring_errors always started)) = true /\
  _registered (state_of (_remove_once always started)) = false /\
  ~ self_healing_at_threshold.
Proof.
  repeat split.
  intros H. specialize (H healing_config (only [4%nat]) 0 started).
  cbv zeta in H. destruct H as [_ H].
  assert (C : self_healing_invoked
                (events_of (heartbeat_iteration healing_config (only [4%nat])
                              0 started)) = true)
    by (apply H; split; [reflexivity|cbn; lia]).
  discriminate C.
Qed.

(** ** The operations one by one: the stop event and the log *)

Section Operations.
Variable cfg : Config.
Variable oracle : nat -> bool.

Lemma retry_loop_no_construct (retries delay : Z) (n : nat) :
  forall (attempt : Z) (s : State),
    construct_failed
      (events_of (retry_loop oracle n attempt retries delay s)) = false.
Proof.
  unfold construct_failed.
  induction n as [|n IH]; intros attempt s; [reflexivity|].
  cbn [retry_loop]. rewrite bind_run.
  assert (Hstep : forall s1 ev1,
             existsb is_failed_construct ev1 = false ->
             existsb is_failed_construct
               (events_of
                  match
                    ((if attempt <? retries
                      then _log LInfo (MsgRetrying attempt retries delay);;
                           sleep oracle delay
                      else ret tt);;
                     retry_loop oracle n (attempt + 1) retries delay) s1
                  with
                  | (r, s2, ev2) => (r, s2, ev1 ++ ev2)
                  end) = false).
  { intros s1 ev1 H1. rewrite bind_run.
    destruct (pause_cases oracle attempt retries delay s1)
      as (s' & _ & Hp). cbv zeta in Hp.
    specialize (IH (attempt + 1) s').
    destruct (retry_loop oracle n (attempt + 1) retries delay s')
      as [[r s2] ev2] eqn:Er.
    unfold events_of in IH. cbn in IH.
    destruct Hp as [(_ & -> & E)|[(_ & E)|(_ & e & He & E)]];
      rewrite E; rewrite ?Er; cbn; rewrite ?existsb_app, ?H1; cbn;
      rewrite ?IH; reflexivity. }
  destruct (_client s) as [c|] eqn:Ec.
  - destruct (oracle (clock s)) eqn:Eo.
    + rewrite (register_once_ok oracle s c Ec Eo). reflexivity.
    + rewrite (register_once_fail oracle s c Ec Eo). apply Hstep. reflexivity.
  - rewrite (register_once_no_client oracle s Ec). apply Hstep. reflexivity.
Qed.

Lemma register_with_retry_construct (retries delay : option Z) (s : State) :
  let run := register_with_retry cfg oracle retries delay s in
  construct_failed (events_of run) = true ->
  result_of run = Raise (NacosException Construct).
Proof.
  cbv zeta. unfold register_with_retry. rewrite bind_run.
  destruct (init_client_cases oracle s)
    as [(Hc & ->)|[(Hc & Ho & ->)|(Hc & Ho & ->)]].
  - match goal with
    | |- context [retry_loop oracle ?n ?a ?r ?d s] =>
        pose proof (retry_loop_no_construct r d n a s) as H;
        destruct (retry_loop oracle n a r d s) as [[r0 s2] ev2]
    end.
    unfold construct_failed, events_of in *. cbn in *. congruence.
  - match goal with
    | |- context [retry_loop oracle ?n ?a ?r ?d ?s1] =>
        pose proof (retry_loop_no_construct r d n a s1) as H;
        destruct (retry_loop oracle n a r d s1) as [[r0 s2] ev2]
    end.
    unfold construct_failed, events_of in *. cbn in *. congruence.
  - reflexivity.
Qed.

(** [start]: the stop event, the failures and the propagation of a
    failed construction. *)
Lemma start_facts (s : State) :
  let run := start cfg oracle s in
  (_heartbeat_stop s = true ->
   _heartbeat_stop (state_of run) = negb (spawned (events_of run))) /\
  failures_logged (is_call_of Construct) (events_of run) = true /\
  (construct_failed (events_of run) = true ->
   result_of run = Raise (NacosException Construct)).
Proof.
  cbv zeta. unfold start. rewrite init_client_absorbed. rewrite bind_run.
  pose proof (register_with_retry_facts cfg oracle None None s) as H.
  pose proof (register_with_retry_construct None None s) as C.
  cbv zeta in H, C.
  destruct (register_with_retry cfg oracle None None s) as [[r s1] ev1].
  destruct H as ((F1 & F2 & F3 & F4 & F5) & F6 & F7).
  pose proof (registration_events_spawn _ F5) as Hsp.
  assert (L : failures_logged (is_call_of Construct) ev1 = true).
  { destruct F7 as [F7|[F7 _]].
    - apply (failures_logged_weaken no_exemption); [discriminate|exact F7].
    - unfold events_of in F7. cbn in F7. rewrite F7. reflexivity. }
  unfold keeps_thread_state in F1. unfold spawned, construct_failed in *.
  unfold result_of, state_of, events_of in *. cbn [fst snd] in *.
  destruct r as [[|]|e]; [destruct (ephemeral cfg)|..]; exec_goal;
    rewrite ?existsb_app, ?Hsp, ?app_nil_r; cbn; rewrite ?orb_false_r.
  all: repeat split; try solve [intuition congruence].
  all: try solve [apply failures_logged_app; [exact L|reflexivity]].
  all: try assumption.
  all: intros HH; specialize (C HH); discriminate.
Qed.

Lemma install_signal_handlers_spec (ex : ClientOp -> bool) (s : State) :
  exists s1 ev1,
    install_signal_handlers oracle s = (Ok tt, s1, ev1) /\
    _heartbeat_stop s1 = _heartbeat_stop s /\
    failures_logged ex ev1 = true /\
    construct_failed ev1 = false /\
    spawned ev1 = false.
Proof.
  destruct s as [c th st rg oi ot hi ht clk].
  unfold install_signal_handlers, signal_signal. exec_goal.
  destruct (oracle clk); cbn; [destruct (oracle (S clk)); cbn|];
    eexists _, _; (split; [reflexivity|]); repeat split.
Qed.

Lemma restore_signal_handlers_spec (ex : ClientOp -> bool) (s : State) :
  exists s1 ev1,
    restore_signal_handlers oracle s = (Ok tt, s1, ev1) /\
    _heartbeat_stop s1 = _heartbeat_stop s /\
    failures_logged ex ev1 = true /\
    construct_failed ev1 = false /\
    spawned ev1 = false.
Proof.
  destruct s as [c th st rg oi ot hi ht clk].
  unfold restore_signal_handlers, signal_signal. exec_goal.
  destruct oi as [h1|], ot as [h2|]; cbn;
    repeat match goal with
           | |- context [oracle ?n] => destruct (oracle n); cbn
           end;
    eexists _, _; (split; [reflexivity|]); repeat split.
Qed.

Lemma stop_spec (ex : ClientOp -> bool) (t : Z) (s : State) :
  exists s1 ev1,
    stop oracle t s = (Ok tt, s1, ev1) /\
    (_heartbeat_stop s = true -> _heartbeat_stop s1 = true) /\
    failures_logged ex ev1 = true /\
    construct_failed ev1 = false /\
    spawned ev1 = false.
Proof.
  destruct s as [c th st rg oi ot hi ht clk].
  unfold stop, _remove_once, join.
  destruct (TIMEOUT_MAX <? t), c as [[]|], th as [[]|]; exec_goal;
    repeat match goal with
           | |- context [oracle ?n] => destruct (oracle n); cbn
           end;
    eexists _, _; (split; [reflexivity|]); repeat split; auto;
    cbn; rewrite ?orb_true_r; reflexivity.
Qed.

Lemma single_call_facts (s : State) :
  let reg := _register_once oracle s in
  let rem := _remove_once oracle s in
  (_heartbeat_stop (state_of reg) = _heartbeat_stop s /\
   failures_logged no_exemption (events_of reg) = true /\
   construct_failed (events_of reg) = false) /\
  (_heartbeat_stop (state_of rem) = _heartbeat_stop s /\
   failures_logged no_exemption (events_of rem) = true /\
   construct_failed (events_of rem) = false).
Proof.
  destruct s as [c th st rg oi ot hi ht clk].
  unfold _register_once, _remove_once.
  destruct c as [[]|]; exec_goal; [destruct (oracle clk)|]; cbn;
    repeat split.
Qed.

(** C6, as the code has it.  Once the stop event is set, every operation
    of the controller leaves it set, except [start] (and [__enter__],
    which calls it): [start] clears the event exactly when it goes on to
    spawn the heartbeat thread, that is when registration succeeded for an
    ephemeral instance. *)
Theorem stop_signal_cleared_only_by_start (op : Operation) (s : State) :
  _heartbeat_stop s = true ->
  let run := perform cfg oracle op s in
  _heartbeat_stop (state_of run) =
    if clears_stop_signal op then negb (spawned (events_of run)) else true.
Proof.
  intros Hs. cbv zeta. destruct op; cbn [perform clears_stop_signal].
  - destruct (init_client_cases oracle s)
      as [(_ & ->)|[(_ & _ & ->)|(_ & _ & ->)]]; exact Hs.
  - destruct (single_call_facts s) as ((H & _) & _). cbv zeta in H.
    rewrite bind_run. destruct (_register_once oracle s) as [[[] ?] ?];
      cbn in *; congruence.
  - pose proof (register_with_retry_facts cfg oracle retries delay s) as H.
    cbv zeta in H. destruct H as (((_ & H & _) & _) & _).
    rewrite bind_run.
    destruct (register_with_retry cfg oracle retries delay s) as [[[] ?] ?];
      cbn in *; congruence.
  - destruct (single_call_facts s) as (_ & (H & _)). cbv zeta in H.
    rewrite bind_run. destruct (_remove_once oracle s) as [[[] ?] ?];
      cbn in *; congruence.
  - destruct (heartbeat_loop_facts cfg oracle fuel 0 s) as (_ & H & _).
    specialize (H Hs). rewrite bind_run. unfold _heartbeat_loop.
    destruct (heartbeat_loop_from cfg oracle fuel 0 s) as [[[] ?] ?];
      cbn in *; congruence.
  - apply start_facts. exact Hs.
  - destruct (stop_spec no_exemption unregister_timeout s)
      as (s1 & ev1 & -> & H & _). exact (H Hs).
  - destruct (install_signal_handlers_spec no_exemption s)
      as (s1 & ev1 & -> & H & _). cbn. congruence.
  - destruct (restore_signal_handlers_spec no_exemption s)
      as (s1 & ev1 & -> & H & _). cbn. congruence.
  - unfold __enter__. rewrite bind_run.
    destruct (install_signal_handlers_spec no_exemption s)
      as (s1 & ev1 & -> & H1 & _ & _ & H4).
    destruct (start_facts s1) as (H & _). cbv zeta in H.
    rewrite H1 in H. specialize (H Hs).
    destruct (start cfg oracle s1) as [[r s2] ev2].
    unfold state_of, events_of, spawned in *. cbn in *.
    rewrite existsb_app, H4. exact H.
  - unfold __exit__, try_finally.
    destruct (stop_spec no_exemption DEFAULT_UNREGISTER_TIMEOUT s)
      as (s1 & ev1 & -> & H1 & _).
    destruct (restore_signal_handlers_spec no_exemption s1)
      as (s2 & ev2 & -> & H2 & _). cbn. rewrite H2. exact (H1 Hs).
Qed.

(** C7, as the code has it.  In every operation, an SDK call or a
    [signal.signal] that raised is followed at once by a log line of
    warning level or above, with two exceptions.  In the heartbeat loop the
    remove-instance call of self-healing may fail without any line.  In
    the foreground a failed construction of the client is not caught at
    all: the operation raises that exception to its caller. *)
Theorem caught_failures_are_logged (op : Operation) (s : State) :
  let run := perform cfg oracle op s in
  failures_logged (unlogged_failures op) (events_of run) = true /\
  (in_heartbeat_thread op = false ->
   construct_failed (events_of run) = true ->
   result_of run = Raise (NacosException Construct)).
Proof.
  cbv zeta.
  destruct op; cbn [perform unlogged_failures in_heartbeat_thread].
  - destruct (init_client_cases oracle s)
      as [(_ & ->)|[(_ & _ & ->)|(_ & _ & ->)]]; cbn; split; auto; discriminate.
  - destruct (single_call_facts s) as ((_ & H1 & H2) & _). cbv zeta in H1, H2.
    rewrite bind_run. destruct (_register_once oracle s) as [[[] ?] ?];
      unfold events_of in *; cbn in *; rewrite ?app_nil_r; split;
      try (intros _; congruence);
      apply (failures_logged_weaken no_exemption); auto; discriminate.
  - pose proof (register_with_retry_facts cfg oracle retries delay s) as H.
    pose proof (register_with_retry_construct retries delay s) as C.
    cbv zeta in H, C. destruct H as (_ & _ & H).
    rewrite bind_run.
    destruct (register_with_retry cfg oracle retries delay s) as [[r ?] ev].
    unfold events_of, result_of in *. cbn [fst snd] in *.
    assert (L : failures_logged (is_call_of Construct) ev = true).
    { destruct H as [H|[-> _]]; [|reflexivity].
      apply (failures_logged_weaken no_exemption); [discriminate|exact H]. }
    destruct r; cbn; rewrite ?app_nil_r; split; auto.
    + intros _ HH. discriminate (C HH).
    + intros _ HH. specialize (C HH). congruence.
  - destruct (single_call_facts s) as (_ & (_ & H1 & H2)). cbv zeta in H1, H2.
    rewrite bind_run. destruct (_remove_once oracle s) as [[[] ?] ?];
      unfold events_of in *; cbn in *; rewrite ?app_nil_r; split;
      try (intros _; congruence);
      apply (failures_logged_weaken no_exemption); auto; discriminate.
  - destruct (heartbeat_loop_facts cfg oracle fuel 0 s) as (_ & _ & H & _).
    rewrite bind_run. unfold _heartbeat_loop.
    destruct (heartbeat_loop_from cfg oracle fuel 0 s) as [[[] ?] ?];
      unfold events_of in *; cbn in *; rewrite ?app_nil_r; split;
      auto; discriminate.
  - destruct (start_facts s) as (_ & H1 & H2). auto.
  - destruct (stop_spec (is_call_of Construct) unregister_timeout s)
      as (s1 & ev1 & -> & _ & H1 & H2 & _). cbn. split; auto.
    unfold construct_failed in *. intros _. congruence.
  - destruct (install_signal_handlers_spec (is_call_of Construct) s)
      as (s1 & ev1 & -> & _ & H1 & H2 & _). cbn. split; auto.
    unfold construct_failed in *. intros _. congruence.
  - destruct (restore_signal_handlers_spec (is_call_of Construct) s)
      as (s1 & ev1 & -> & _ & H1 & H2 & _). cbn. split; auto.
    unfold construct_failed in *. intros _. congruence.
  - unfold __enter__. rewrite bind_run.
    destruct (install_signal_handlers_spec (is_call_of Construct) s)
      as (s1 & ev1 & -> & _ & H1 & H2 & _).
    destruct (start_facts s1) as (_ & K1 & K2). cbv zeta in K1, K2.
    destruct (start cfg oracle s1) as [[r s2] ev2].
    unfold result_of, events_of, construct_failed in *. cbn [fst snd] in *.
    split.
    + apply failures_logged_app; assumption.
    + intros _. rewrite existsb_app, H2. cbn. exact K2.
  - unfold __exit__, try_finally.
    destruct (stop_spec (is_call_of Construct) DEFAULT_UNREGISTER_TIMEOUT s)
      as (s1 & ev1 & -> & _ & H1 & H2 & _).
    destruct (restore_signal_handlers_spec (is_call_of Construct) s1)
      as (s2 & ev2 & -> & _ & K1 & K2 & _).
    unfold result_of, events_of, construct_failed in *. cbn [fst snd] in *.
    split.
    + apply failures_logged_app; assumption.
    + intros _. rewrite existsb_app, H2, K2. discriminate.
Qed.
End Operations.

(** From a controller whose stop event is set, [stop] leaves it set and a
    [start] that registers clears it. *)
Lemma stop_signal_cleared_only_by_start_witness :
  _heartbeat_stop
    (state_of (perform example_config always
                       (OpStop DEFAULT_UNREGISTER_TIMEOUT) stopped)) = true /\
  _heartbeat_stop
    (state_of (perform example_config always OpStart stopped)) = false.
Proof.
  split.
  - exact (stop_signal_cleared_only_by_start
             example_config always (OpStop DEFAULT_UNREGISTER_TIMEOUT)
             stopped eq_refl).
  - exact (stop_signal_cleared_only_by_start
             example_config always OpStart stopped eq_refl).
Defined.

(** C6 as stated fails: [stop] has set the event, and a second [start] on
    the same controller unsets it. *)
Lemma start_unsets_stop_signal :
  _heartbeat_stop stopped = true /\
  _heartbeat_stop (state_of (start example_config always stopped)) = false /\
  ~ stop_signal_is_one_shot.
Proof.
  split; [reflexivity|]. split; [reflexivity|].
  intros H. specialize (H example_config always OpStart stopped eq_refl).
  discriminate H.
Qed.

(** C7 as stated fails: with [heartbeat_max_failures = 1], a heartbeat
    that fails leads to self-healing, whose remove-instance call fails and
    is followed by the add-instance call, not by a log line. *)
Lemma self_healing_drops_remove_failure :
  events_of (heartbeat_iteration healing_config (only [6%nat]) 0 started) =
    [EvCall SendHeartbeat false;
     EvLog LWarning (MsgHeartbeatFailed 1 1 (NacosException SendHeartbeat));
     EvLog LDebug MsgTraceback;
     EvLog LWarning MsgSelfHealing;
     EvCall RemoveInstance false;
     EvCall AddInstance true;
     EvLog LInfo MsgRegistered;
     EvLog LInfo MsgSelfHealed] /\
  ~ no_failure_is_dropped.
Proof.
  split; [reflexivity|].
  intros H.
  specialize (H healing_config (only [6%nat]) (OpHeartbeatLoop 1) started).
  discriminate H.
Qed.

(** ** Single calls, and [stop] *)

Section SingleCalls.

Variable cfg : Config.
Variable oracle : nat -> bool.

(** C9.  With [retries <= 0] (given or configured) the range is empty:
    [register_with_retry] makes no add-instance call and returns [False],
    and all it does is [_init_client], which builds the client when there
    was none. *)
Theorem register_with_retry_nonpositive
        (retries delay : option Z) (s : State) :
  effective_retries cfg retries <= 0 ->
  (_client s = None -> oracle (clock s) = true) ->
  let run := register_with_retry cfg oracle retries delay s in
  result_of run = Ok false /\
  count_calls AddInstance (events_of run) = 0%nat /\
  _client (state_of run) = Some NacosClient /\
  count_calls Construct (events_of run) = (1 - client_calls_of s)%nat /\
  state_of run = state_of (_init_client oracle s) /\
  events_of run = events_of (_init_client oracle s).
Proof.
  intros Hr Hc. cbv zeta. unfold register_with_retry.
  replace (Z.to_nat _) with 0%nat
    by (unfold effective_retries in Hr; destruct retries; lia).
  destruct s as [c th st rg oi ot hi ht clk]. cbn in Hc.
  unfold _init_client. destruct c as [[]|].
  - exec. repeat split.
  - exec. rewrite (Hc eq_refl). cbn. repeat split.
Qed.

(** C10.  [_register_once] and [_remove_once] always return a boolean,
    true exactly when the SDK call returned; [_registered] becomes
    [True], respectively [False], in that case and keeps its value when
    the call failed. *)
Theorem failed_call_keeps_registered (s : State) :
  let reg := _register_once oracle s in
  let rem := _remove_once oracle s in
  (result_of reg = Ok (call_returns oracle s) /\
   _registered (state_of reg) =
     if call_returns oracle s then true else _registered s) /\
  (result_of rem = Ok (call_returns oracle s) /\
   _registered (state_of rem) =
     if call_returns oracle s then false else _registered s).
Proof.
  destruct s as [c th st rg oi ot hi ht clk]. unfold call_returns.
  unfold _register_once, _remove_once.
  destruct c as [[]|]; exec; [destruct (oracle clk)|]; cbn; repeat split.
Qed.

(** C2, as the code has it.  [stop] never raises and makes one
    remove-instance call whenever the client exists, whatever
    [_registered] holds: a second [stop] makes a second call.  The flag
    is written by [_register_once] and [_remove_once] and read by no
    method; setting it either way before [stop] changes nothing in what
    [stop] does. *)
Theorem stop_always_removes (t t' : Z) (s : State) :
  let once := stop oracle t s in
  let twice := (stop oracle t ;; stop oracle t') s in
  result_of once = Ok tt /\
  result_of twice = Ok tt /\
  count_calls RemoveInstance (events_of once) = client_calls_of s /\
  count_calls RemoveInstance (events_of twice) = (2 * client_calls_of s)%nat /\
  (forall b : bool,
      events_of (stop oracle t (set_registered b s)) = events_of once).
Proof.
  destruct s as [c th st rg oi ot hi ht clk]. unfold client_calls_of.
  unfold stop, _remove_once, join.
  destruct (TIMEOUT_MAX <? t), (TIMEOUT_MAX <? t'), c as [[]|], th as [[]|];
    exec;
    repeat match goal with
           | |- context [oracle ?n] => destruct (oracle n); cbn
           end; repeat split.
Qed.

End SingleCalls.

(** A controller with [retries = 0]: the client is built, nothing is
    registered. *)
Lemma register_with_retry_nonpositive_witness :
  result_of (register_with_retry example_config always (Some 0) None fresh)
    = Ok false /\
  count_calls AddInstance
    (events_of (register_with_retry example_config always (Some 0) None fresh))
    = 0%nat /\
  _client (state_of (register_with_retry example_config always
                                         (Some 0) None fresh))
    = Some NacosClient.
Proof.
  destruct (register_with_retry_nonpositive example_config always
              (Some 0) None fresh) as (H1 & H2 & H3 & _).
  - cbn. lia.
  - reflexivity.
  - repeat split; assumption.
Defined.

(** C2 as stated fails: after a successful [start], the first [stop]
    deregisters and leaves [_registered] false, and the second [stop] still
    calls remove-instance once more. *)
Lemma stop_twice_calls_registry_again :
  let once := stop always DEFAULT_UNREGISTER_TIMEOUT started in
  let twice :=
    (stop always DEFAULT_UNREGISTER_TIMEOUT ;;
     stop always DEFAULT_UNREGISTER_TIMEOUT) started in
  _registered (state_of once) = false /\
  count_calls RemoveInstance (events_of once) = 1%nat /\
  count_calls RemoveInstance (events_of twice) = 2%nat /\
  ~ stop_is_idempotent.
Proof.
  cbv zeta. repeat split; try reflexivity.
  intros H. specialize (H always DEFAULT_UNREGISTER_TIMEOUT started).
  discriminate H.
Qed.

(** ** The decorator's activation check *)

Section Decorator.
Variable a : nacos_registry.Args.
Variable oracle : nat -> bool.
Variable R : Type.
Variable work : Result R.

End Decorator.



(** * Further properties of the code *)

Lemma count_calls_app (op : ClientOp) (a b : list Event) :
  count_calls op (a ++ b) = (count_calls op a + count_calls op b)%nat.
Proof. unfold count_calls. rewrite filter_app, length_app. reflexivity. Qed.

Lemma count_sleeps_app (a b : list Event) :
  count_sleeps (a ++ b) = (count_sleeps a + count_sleeps b)%nat.
Proof. unfold count_sleeps. rewrite filter_app, length_app. reflexivity. Qed.

Lemma attempt_events_calls (evs : list Event) :
  forallb attempt_event evs = true ->
  count_calls Construct evs = 0%nat /\
  count_calls RemoveInstance evs = 0%nat /\
  count_calls SendHeartbeat evs = 0%nat /\
  spawned evs = false.
Proof.
  unfold count_calls, spawned.
  induction evs as [|e evs IH]; cbn; [auto|].
  intros H. apply andb_true_iff in H as [H1 H2].
  destruct (IH H2) as (I1 & I2 & I3 & I4).
  destruct e as [[] ?| | | | | | |]; try discriminate; cbn; auto.
Qed.

Section RetryBounds.

Variable cfg : Config.
Variable oracle : nat -> bool.

Lemma retry_loop_bounds (retries delay : Z) (n : nat) :
  forall (attempt : Z) (s : State),
    _client s <> None ->
    Z.of_nat n = Z.max 0 (retries - attempt + 1) ->
    let run := retry_loop oracle n attempt retries delay s in
    forallb attempt_event (events_of run) = true /\
    (count_calls AddInstance (events_of run) <= n)%nat /\
    (count_sleeps (events_of run)
     <= count_calls AddInstance (events_of run) - 1)%nat.
Proof.
  induction n as [|n IH]; intros attempt s Hc Hn; cbv zeta.
  - cbn. repeat split; lia.
  - destruct (_client s) as [c|] eqn:Ec; [clear Hc|congruence].
    cbn [retry_loop]. rewrite bind_run.
    destruct (oracle (clock s)) eqn:Eo.
    + rewrite (register_once_ok oracle s c Ec Eo). cbn. repeat split; lia.
    + rewrite (register_once_fail oracle s c Ec Eo).
      rewrite bind_run.
      destruct (pause_cases oracle attempt retries delay (tick s))
        as (s' & Hs' & Hp). cbv zeta in Hp.
      assert (Ec' : _client s' = Some c)
        by (destruct Hs' as [->| ->]; exact Ec).
      specialize (IH (attempt + 1) s'). cbv zeta in IH.
      destruct IH as (I1 & I2 & I3); [congruence|lia|].
      destruct (retry_loop oracle n (attempt + 1) retries delay s')
        as [[r s2] ev2] eqn:Er.
      unfold events_of in I1, I2, I3. cbn [snd] in I1, I2, I3.
      destruct Hp as [(Ea & -> & E)|[(Ea & E)|(Ea & e & He & E)]];
        rewrite E; rewrite ?Er; cbn.
      * apply Z.ltb_ge in Ea. assert (n = 0%nat) by lia. subst n.
        cbn in Er. injection Er as <- <- <-. cbn. repeat split; lia.
      * apply Z.ltb_lt in Ea.
        unfold count_calls, count_sleeps in *. cbn.
        rewrite I1. repeat split; try lia.
        assert (n <> 0%nat) by lia.
        assert (Hpos : (1 <= List.length (filter (is_call AddInstance) ev2))%nat).
        { destruct n as [|n']; [lia|].
          clear - Er Ec'.
          cbn [retry_loop] in Er. rewrite bind_run in Er.
          destruct (oracle (clock s')) eqn:Eo'.
          - rewrite (register_once_ok oracle _ c Ec' Eo') in Er.
            injection Er as _ _ <-. cbn. lia.
          - rewrite (register_once_fail oracle _ c Ec' Eo') in Er.
            destruct ((_ ;; _) (tick s')) as [[r3 s3] ev3].
            injection Er as _ _ <-. cbn. lia. }
        lia.
      * repeat split; lia.
Qed.

(** The SDK calls and sleeps of [register_with_retry]. *)
Lemma register_with_retry_calls (retries delay : option Z) (s : State) :
  let run := register_with_retry cfg oracle retries delay s in
  (count_calls AddInstance (events_of run)
   <= Z.to_nat (effective_retries cfg retries))%nat /\
  (count_sleeps (events_of run)
   <= count_calls AddInstance (events_of run) - 1)%nat /\
  count_calls Construct (events_of run) = (1 - client_calls_of s)%nat /\
  count_calls RemoveInstance (events_of run) = 0%nat /\
  count_calls SendHeartbeat (events_of run) = 0%nat.
Proof.
  cbv zeta.
  unfold register_with_retry, effective_retries, client_calls_of.
  rewrite bind_run.
  set (r := match retries with None => register_retries cfg | Some r => r end).
  set (d := match delay with
            | None => register_retry_delay cfg | Some d => d end).
  destruct (init_client_cases oracle s)
    as [(Hc & ->)|[(Hc & Ho & ->)|(Hc & Ho & ->)]].
  - destruct (retry_loop_bounds r d (Z.to_nat r) 1 s Hc) as (B1 & B2 & B3);
      [lia|].
    destruct (attempt_events_calls _ B1) as (A1 & A2 & A3 & _).
    destruct (retry_loop oracle (Z.to_nat r) 1 r d s) as [[r0 s2] ev2].
    unfold events_of in *. cbn [snd] in *. cbn.
    destruct (_client s); [|congruence]. repeat split; assumption.
  - destruct (retry_loop_bounds r d (Z.to_nat r) 1
                (set_client (Some NacosClient) (tick s)))
      as (B1 & B2 & B3); [discriminate|lia|].
    destruct (attempt_events_calls _ B1) as (A1 & A2 & A3 & _).
    destruct (retry_loop oracle (Z.to_nat r) 1 r d _) as [[r0 s2] ev2].
    unfold events_of in *. cbn [snd] in *. rewrite Hc.
    unfold count_calls, count_sleeps in *. cbn.
    repeat split; try assumption. lia.
  - rewrite Hc. cbn. repeat split; lia.
Qed.

(** X1.  Whatever the registry answers, [register_with_retry] makes at
    most [max 0 retries] add-instance calls and sleeps at most once fewer
    times than it called; it builds the client exactly when there was
    none, and never removes an instance or sends a heartbeat.  When it
    returns [True] the instance is marked registered; when it returns
    [False] the mark is what it was. *)
Theorem register_with_retry_bounds (retries delay : option Z) (s : State) :
  let run := register_with_retry cfg oracle retries delay s in
  (count_calls AddInstance (events_of run)
   <= Z.to_nat (effective_retries cfg retries))%nat /\
  (count_sleeps (events_of run)
   <= count_calls AddInstance (events_of run) - 1)%nat /\
  count_calls Construct (events_of run) = (1 - client_calls_of s)%nat /\
  count_calls RemoveInstance (events_of run) = 0%nat /\
  count_calls SendHeartbeat (events_of run) = 0%nat /\
  (result_of run = Ok true -> _registered (state_of run) = true) /\
  (result_of run = Ok false -> _registered (state_of run) = _registered s).
Proof.
  cbv zeta.
  pose proof (register_with_retry_facts cfg oracle retries delay s) as F.
  pose proof (register_with_retry_calls retries delay s) as B.
  cbv zeta in F, B. destruct F as ((_ & F2 & F3 & _) & _).
  destruct B as (B1 & B2 & B3 & B4 & B5).
  repeat split; try assumption.
  intros H. apply F2. rewrite H. discriminate.
Qed.

End RetryBounds.

Section HeartbeatBounds.

Variable cfg : Config.
Variable oracle : nat -> bool.

Lemma self_heal_calls (c : Z) (s : State) :
  let evs := events_of (self_heal cfg oracle c s) in
  count_calls SendHeartbeat evs = 0%nat /\
  count_calls RemoveInstance evs = client_calls_of s /\
  (count_calls AddInstance evs <= Z.to_nat (register_retries cfg))%nat /\
  count_calls Construct evs = (1 - client_calls_of s)%nat.
Proof.
  cbv zeta.
  destruct (self_heal_spec cfg oracle c s) as (_ & _ & _ & ->).
  destruct (remove_ignoring_errors_spec oracle s) as (_ & _ & _ & Kc & _).
  pose proof (register_with_retry_calls cfg oracle None None
                (state_of (remove_ignoring_errors oracle s))) as B.
  cbv zeta in B. destruct B as (B1 & _ & B3 & B4 & B5).
  assert (Hrm : count_calls RemoveInstance
                  (events_of (remove_ignoring_errors oracle s))
                = client_calls_of s /\
                count_calls SendHeartbeat
                  (events_of (remove_ignoring_errors oracle s)) = 0%nat /\
                count_calls AddInstance
                  (events_of (remove_ignoring_errors oracle s)) = 0%nat /\
                count_calls Construct
                  (events_of (remove_ignoring_errors oracle s)) = 0%nat).
  { clear. destruct s as [cl th st rg oi ot hi ht clk].
    unfold remove_ignoring_errors, client_calls_of.
    destruct cl as [[]|]; exec_goal; [destruct (oracle clk)|]; repeat split. }
  destruct Hrm as (R1 & R2 & R3 & R4).
  assert (Hc : client_calls_of (state_of (remove_ignoring_errors oracle s))
               = client_calls_of s).
  { unfold client_calls_of. rewrite Kc. reflexivity. }
  rewrite Hc in B3. cbn [effective_retries] in B1.
  set (rm := events_of (remove_ignoring_errors oracle s)) in *.
  set (reg := register_with_retry cfg oracle None None _) in *.
  assert (Hout : forall op,
             count_calls op (healing_outcome_log (result_of reg)) = 0%nat).
  { intros op. destruct (result_of reg) as [[|]|e]; reflexivity. }
  change (EvLog LWarning MsgSelfHealing
          :: rm ++ events_of reg ++ healing_outcome_log (result_of reg))
    with ([EvLog LWarning MsgSelfHealing]
          ++ rm ++ events_of reg ++ healing_outcome_log (result_of reg)).
  rewrite !count_calls_app, !Hout, R1, R2, R3, R4, B3, B4, B5.
  cbn. repeat split; lia.
Qed.

(** One pass of the heartbeat loop: the SDK calls it can make. *)
Lemma heartbeat_pass_calls (c : Z) (s : State) :
  let evs := events_of (heartbeat_iteration cfg oracle c s) in
  (count_calls SendHeartbeat evs <= 1)%nat /\
  (count_calls RemoveInstance evs <= 1)%nat /\
  (count_calls AddInstance evs <= Z.to_nat (register_retries cfg))%nat /\
  (count_calls Construct evs <= 1 - client_calls_of s)%nat /\
  (self_healing_invoked evs = false ->
   count_calls RemoveInstance evs = 0%nat /\
   count_calls AddInstance evs = 0%nat /\
   count_calls Construct evs = 0%nat).
Proof.
  cbv zeta.
  destruct (heartbeat_iteration_cases cfg oracle c s) as (b1 & s1 & E1 & H).
  destruct (stop_wait_spec oracle (heartbeat_interval cfg) s)
    as (b1' & s1' & E1' & _ & _ & W3 & _).
  rewrite E1 in E1'. injection E1' as <- <-.
  cbv zeta in H.
  destruct b1 as [[|]|e];
    [rewrite H; cbn; repeat split; lia
    |
    |rewrite H; cbn; repeat split; lia].
  destruct (negb (ephemeral cfg)); [rewrite H; cbn; repeat split; lia|].
  destruct (call_returns oracle s1); [rewrite H; cbn; repeat split; lia|].
  destruct H as (b2 & s3 & E2 & H).
  assert (Hf : count_calls SendHeartbeat
                 (send_failure_events (c + 1) (heartbeat_max_failures cfg) s1)
               = client_calls_of s /\
               count_calls RemoveInstance
                 (send_failure_events (c + 1) (heartbeat_max_failures cfg) s1)
               = 0%nat /\
               count_calls AddInstance
                 (send_failure_events (c + 1) (heartbeat_max_failures cfg) s1)
               = 0%nat /\
               count_calls Construct
                 (send_failure_events (c + 1) (heartbeat_max_failures cfg) s1)
               = 0%nat /\
               self_healing_invoked
                 (send_failure_events (c + 1) (heartbeat_max_failures cfg) s1)
               = false).
  { unfold send_failure_events, client_calls_of. rewrite <- W3.
    destruct (_client s1); repeat split. }
  destruct Hf as (F1 & F2 & F3 & F4 & F5).
  assert (Hle : (client_calls_of s <= 1)%nat).
  { unfold client_calls_of. destruct (_client s); lia. }
  destruct b2 as [[|]|e];
    [|destruct (heartbeat_max_failures cfg <=? c + 1)|].
  - rewrite H. unfold events_of. cbn [snd]. rewrite F1, F2, F3, F4.
    repeat split; lia.
  - destruct H as (c' & _ & ->).
    destruct (self_heal_calls (c + 1) s3) as (G1 & G2 & G3 & G4).
    destruct (self_heal_facts cfg oracle (c + 1) s3) as (_ & _ & _ & G5 & _).
    assert (Hc3 : client_calls_of s3 = client_calls_of s).
    { destruct (stop_wait_spec oracle (heartbeat_retry_delay cfg)
                  (match _client s1 with Some _ => tick s1 | None => s1 end))
        as (b & s3' & E & _ & _ & V3 & _).
      rewrite E2 in E. injection E as _ <-.
      unfold client_calls_of. rewrite V3, <- W3.
      destruct (_client s1) eqn:Ec1; cbn; rewrite ?Ec1; reflexivity. }
    rewrite Hc3 in G2, G4.
    remember (self_heal cfg oracle (c + 1) s3) as heal.
    unfold self_healing_invoked, events_of in *. cbn [snd] in *.
    rewrite !count_calls_app, existsb_app, F1, F2, F3, F4, F5, G1, G2, G4, G5.
    rewrite orb_true_r. repeat split; try lia; intros HH; discriminate HH.
  - rewrite H. unfold events_of. cbn [snd]. rewrite F1, F2, F3, F4.
    repeat split; lia.
  - rewrite H. unfold events_of. cbn [snd]. rewrite F1, F2, F3, F4.
    repeat split; lia.
Qed.

(** X2.  One pass of the heartbeat loop sends at most one heartbeat,
    removes the instance at most once, makes at most [register_retries]
    add-instance calls and builds a client only if there was none; a pass
    that does not reach self-healing neither removes, adds nor builds. *)
Theorem heartbeat_pass_call_bounds (c : Z) (s : State) :
  let evs := events_of (heartbeat_iteration cfg oracle c s) in
  (count_calls SendHeartbeat evs <= 1)%nat /\
  (count_calls RemoveInstance evs <= 1)%nat /\
  (count_calls AddInstance evs <= Z.to_nat (register_retries cfg))%nat /\
  (count_calls Construct evs <= 1 - client_calls_of s)%nat /\
  (self_healing_invoked evs = false ->
   count_calls RemoveInstance evs = 0%nat /\
   count_calls AddInstance evs = 0%nat /\
   count_calls Construct evs = 0%nat).
Proof. exact (heartbeat_pass_calls c s). Qed.

End HeartbeatBounds.

Section HeartbeatLoop.

Variable cfg : Config.
Variable oracle : nat -> bool.

(** X4.  The heartbeat loop ends in one of two ways only: it returns,
    and then with the stop event set, or a wait raises [OverflowError]
    and the thread dies with the event unset, which needs
    [heartbeat_interval] or [heartbeat_retry_delay] above [TIMEOUT_MAX].
    With both at most [TIMEOUT_MAX] it never raises.  Entered with the
    event set, it ends at once, before any call, log line or change of
    the controller. *)
Theorem heartbeat_loop_ends_on_stop_or_overflow (fuel : nat) :
  forall (c : Z) (s : State),
    let run := heartbeat_loop_from cfg oracle fuel c s in
    (result_of run = Raise OverflowError /\
     _heartbeat_stop (state_of run) = false /\
     (TIMEOUT_MAX < heartbeat_interval cfg \/
      TIMEOUT_MAX < heartbeat_retry_delay cfg)
     \/
     exists status c',
       result_of run = Ok (status, c') /\
       (status = Exited -> _heartbeat_stop (state_of run) = true)) /\
    (heartbeat_interval cfg <= TIMEOUT_MAX ->
     heartbeat_retry_delay cfg <= TIMEOUT_MAX ->
     exists status c', result_of run = Ok (status, c')) /\
    (_heartbeat_stop s = true ->
     result_of run = Ok (match fuel with O => Running | S _ => Exited end, c) /\
     events_of run = [] /\
     state_of run = s).
Proof.
  intros c s. cbv zeta.
  destruct (heartbeat_loop_facts cfg oracle fuel c s) as (H1 & _).
  split; [|split].
  - destruct H1 as [H1|(st & c' & H1 & H2 & _)]; [left; exact H1|].
    right. exists st, c'. auto.
  - intros Hi Hr.
    destruct H1 as [(_ & _ & Hb)|(st & c' & H1 & _)]; [lia|eauto].
  - intros Hs. destruct fuel as [|fuel]; [cbn; auto|].
    cbn [heartbeat_loop_from]. rewrite bind_run. unfold gets.
    rewrite Hs. cbn. auto.
Qed.

(** X3.  For a permanent instance ([ephemeral = False]) the heartbeat
    loop does nothing observable, however long it runs and whatever the
    environment answers: no call, no log line, the client and the
    registration mark as they were.  It returns the failure counter it
    was entered with, unless its wait raises [OverflowError], which
    needs [heartbeat_interval] above [TIMEOUT_MAX]. *)
Theorem permanent_instance_loop_is_silent (fuel : nat) :
  ephemeral cfg = false ->
  forall (c : Z) (s : State),
    let run := heartbeat_loop_from cfg oracle fuel c s in
    events_of run = [] /\
    _client (state_of run) = _client s /\
    _registered (state_of run) = _registered s /\
    (result_of run = Raise OverflowError /\
     TIMEOUT_MAX < heartbeat_interval cfg
     \/ exists status, result_of run = Ok (status, c)) /\
    (heartbeat_interval cfg <= TIMEOUT_MAX ->
     exists status, result_of run = Ok (status, c)).
Proof.
  intros He. induction fuel as [|fuel IH]; intros c s; cbv zeta.
  - cbn. repeat split; eauto.
  - cbn [heartbeat_loop_from]. rewrite bind_run. unfold gets.
    destruct (_heartbeat_stop s) eqn:Es; cbv beta iota.
    + cbn. repeat split; eauto.
    + rewrite bind_run.
      destruct (heartbeat_iteration_cases cfg oracle c s) as (r1 & s1 & E1 & H).
      destruct (stop_wait_spec oracle (heartbeat_interval cfg) s)
        as (r1' & s1' & E1' & W1 & _ & W3 & W4 & _).
      rewrite E1 in E1'. injection E1' as <- <-.
      cbv zeta in H. rewrite He in H. cbn [negb] in H.
      destruct W1 as [(-> & W1)|[(-> & W1 & Wb)|(-> & W1 & Wb)]]; rewrite H.
      * cbn. repeat split; eauto.
      * destruct (IH c s1) as (J1 & J2 & J3 & J4 & J5).
        destruct (heartbeat_loop_from cfg oracle fuel c s1) as [[r2 s2] ev2].
        unfold result_of, state_of, events_of in *. cbn [fst snd] in *.
        subst ev2. cbn. repeat split; try congruence; assumption.
      * cbn. repeat split; try assumption; [left; auto|lia].
Qed.

(** With a client in place, the loop never builds another. *)
Lemma heartbeat_loop_no_construct (fuel : nat) :
  forall (c : Z) (s : State),
    _client s <> None ->
    count_calls Construct
      (events_of (heartbeat_loop_from cfg oracle fuel c s)) = 0%nat.
Proof.
  induction fuel as [|fuel IH]; intros c s Hc; [reflexivity|].
  cbn [heartbeat_loop_from]. rewrite bind_run. unfold gets.
  destruct (_heartbeat_stop s) eqn:Es; cbv beta iota; [reflexivity|].
  rewrite bind_run.
  destruct (heartbeat_pass_calls cfg oracle c s) as (_ & _ & _ & B & _).
  destruct (heartbeat_iteration_facts cfg oracle c s) as (I1 & _ & _ & I4).
  specialize (I4 Hc).
  assert (B0 : count_calls Construct
                 (events_of (heartbeat_iteration cfg oracle c s)) = 0%nat).
  { unfold client_calls_of in B. destruct (_client s); [lia|congruence]. }
  destruct (heartbeat_iteration cfg oracle c s) as [[r s1] ev1].
  unfold result_of, state_of, events_of in *. cbn [fst snd] in *.
  destruct I1 as [(-> & _)|(ctl & c1 & -> & _)]; [exact B0|].
  destruct ctl.
  - cbn -[count_calls]. rewrite app_nil_r. exact B0.
  - specialize (IH c1 s1 I4).
    destruct (heartbeat_loop_from cfg oracle fuel c1 s1) as [[r2 s2] ev2].
    cbn [fst snd] in *. cbn -[count_calls].
    rewrite count_calls_app, B0, IH. reflexivity.
Qed.

End HeartbeatLoop.

Lemma permanent_instance_loop_is_silent_witness :
  events_of (heartbeat_loop_from permanent_config (only []) 3 0 started) = [] /\
  (exists status,
      result_of (heartbeat_loop_from permanent_config (only []) 3 0 started)
      = Ok (status, 0)).
Proof.
  destruct (permanent_instance_loop_is_silent permanent_config (only []) 3
              eq_refl 0 started) as (H1 & _ & _ & _ & H5).
  split; [exact H1|]. apply H5. vm_compute. discriminate.
Defined.

Section Foreground.

Variable cfg : Config.
Variable oracle : nat -> bool.

Lemma sleep_raise_kind (delay : Z) (s : State) (e : exn) :
  result_of (sleep oracle delay s) = Raise e -> sleep_error delay e.
Proof.
  unfold sleep, sleep_error.
  destruct (delay <? - TIMEOUT_MAX) eqn:E1;
    [apply Z.ltb_lt in E1; cbn; intros [= <-]; auto|apply Z.ltb_ge in E1].
  destruct (TIMEOUT_MAX <? delay) eqn:E2;
    [apply Z.ltb_lt in E2; cbn; intros [= <-]; auto|apply Z.ltb_ge in E2].
  cbn [orb].
  destruct (delay <? 0) eqn:E3;
    [apply Z.ltb_lt in E3; cbn; intros [= <-]; auto|apply Z.ltb_ge in E3].
  destruct (delay <=? SLEEP_SURE) eqn:E4; [discriminate|apply Z.leb_gt in E4].
  exec_goal. destruct (oracle (clock s)); cbn; [discriminate|].
  intros [= <-]. auto.
Qed.

Lemma retry_loop_raises (retries delay : Z) (n : nat) :
  forall (attempt : Z) (s : State) (e : exn),
    result_of (retry_loop oracle n attempt retries delay s) = Raise e ->
    sleep_error delay e.
Proof.
  induction n as [|n IH]; intros attempt s e; [discriminate|].
  cbn [retry_loop]. rewrite bind_run.
  assert (Hstep : forall s1 ev1,
             result_of
               match
                 ((if attempt <? retries
                   then _log LInfo (MsgRetrying attempt retries delay);;
                        sleep oracle delay
                   else ret tt);;
                  retry_loop oracle n (attempt + 1) retries delay) s1
               with
               | (r, s2, ev2) => (r, s2, ev1 ++ ev2)
               end = Raise e ->
             sleep_error delay e).
  { intros s1 ev1. rewrite bind_run.
    destruct (attempt <? retries).
    - rewrite bind_run. unfold _log, emit.
      pose proof (sleep_raise_kind delay s1 e) as K.
      destruct (sleep oracle delay s1) as [[[[]|e'] s'] ev'].
      + specialize (IH (attempt + 1) s' e).
        destruct (retry_loop oracle n (attempt + 1) retries delay s')
          as [[r s2] ev2].
        unfold result_of in *. cbn in *. exact IH.
      + unfold result_of in *. cbn in *. intros [= ->]. apply K. reflexivity.
    - specialize (IH (attempt + 1) s1 e).
      unfold ret.
      destruct (retry_loop oracle n (attempt + 1) retries delay s1)
        as [[r s2] ev2].
      unfold result_of in *. cbn in *. exact IH. }
  destruct (_client s) as [c|] eqn:Ec.
  - destruct (oracle (clock s)) eqn:Eo.
    + rewrite (register_once_ok oracle s c Ec Eo). discriminate.
    + rewrite (register_once_fail oracle s c Ec Eo). apply Hstep.
  - rewrite (register_once_no_client oracle s Ec). apply Hstep.
Qed.

Lemma register_with_retry_raises (retries delay : option Z) (s : State) (e : exn) :
  result_of (register_with_retry cfg oracle retries delay s) = Raise e ->
  (e = NacosException Construct /\
   _client s = None /\ oracle (clock s) = false) \/
  sleep_error
    (match delay with None => register_retry_delay cfg | Some d => d end) e.
Proof.
  unfold register_with_retry. rewrite bind_run.
  destruct (init_client_cases oracle s)
    as [(Hc & ->)|[(Hc & Ho & ->)|(Hc & Ho & ->)]].
  - match goal with
    | |- context [retry_loop oracle ?n ?a ?r ?d s] =>
        pose proof (retry_loop_raises r d n a s e) as H;
        destruct (retry_loop oracle n a r d s) as [[r0 s2] ev2]
    end.
    unfold result_of in *. cbn in *. intros E. right. auto.
  - match goal with
    | |- context [retry_loop oracle ?n ?a ?r ?d ?s1] =>
        pose proof (retry_loop_raises r d n a s1 e) as H;
        destruct (retry_loop oracle n a r d s1) as [[r0 s2] ev2]
    end.
    unfold result_of in *. cbn in *. intros E. right. auto.
  - cbn. intros [= <-]. left. auto.
Qed.

(** X6.  [start] returns [None] or raises for one of two reasons: the
    SDK's exception of the client constructor, exactly when there was no
    client and the constructor failed, or an exception of [time.sleep],
    which needs a [register_retry_delay] that is negative or above
    [SLEEP_SURE].  With a delay from zero to [SLEEP_SURE] and a client
    that exists or can be built it returns: a registration that fails on
    every attempt does not make it raise. *)
Theorem start_raises_only_for_client_or_sleep (s : State) :
  let run := start cfg oracle s in
  (result_of run = Ok tt \/
   result_of run = Raise (NacosException Construct) \/
   exists e, result_of run = Raise e /\
             sleep_error (register_retry_delay cfg) e) /\
  (result_of run = Raise (NacosException Construct) <->
   _client s = None /\ oracle (clock s) = false) /\
  (0 <= register_retry_delay cfg <= SLEEP_SURE ->
   (_client s = None -> oracle (clock s) = true) ->
   result_of run = Ok tt).
Proof.
  cbv zeta.
  assert (Hmain :
            let run := start cfg oracle s in
            (result_of run = Ok tt \/
             result_of run = Raise (NacosException Construct) \/
             exists e, result_of run = Raise e /\
                       sleep_error (register_retry_delay cfg) e) /\
            (result_of run = Raise (NacosException Construct) <->
             _client s = None /\ oracle (clock s) = false)).
  { cbv zeta. unfold start. rewrite init_client_absorbed. rewrite bind_run.
    pose proof (register_with_retry_raises None None s) as H.
    assert (Hc : _client s = None /\ oracle (clock s) = false ->
                 result_of (register_with_retry cfg oracle None None s)
                 = Raise (NacosException Construct)).
    { intros [Hc Ho]. unfold register_with_retry. rewrite bind_run.
      destruct (init_client_cases oracle s)
        as [(Hc' & E)|[(Hc' & Ho' & E)|(Hc' & Ho' & E)]].
      - congruence.
      - congruence.
      - rewrite E. reflexivity. }
    destruct (register_with_retry cfg oracle None None s) as [[r s1] ev1].
    unfold result_of in *. cbn [fst] in *.
    assert (Hno : forall r' : Result unit,
               (forall x, r' <> Raise x) ->
               (r = Raise (NacosException Construct) -> False) ->
               (r' = Ok tt \/
                r' = Raise (NacosException Construct) \/
                exists e, r' = Raise e /\
                          sleep_error (register_retry_delay cfg) e) /\
               (r' = Raise (NacosException Construct) <->
                _client s = None /\ oracle (clock s) = false)).
    { intros r' Hr' Hr. split.
      - destruct r' as [[]|x]; [left; reflexivity|]. destruct (Hr' x eq_refl).
      - split.
        + intros ->. destruct (Hr' _ eq_refl).
        + intros K. destruct (Hr (Hc K)). }
    destruct r as [[|]|e].
    - destruct (ephemeral cfg); exec_goal; apply Hno; discriminate.
    - exec_goal. apply Hno; discriminate.
    - cbn. destruct (H e eq_refl) as [(-> & K1 & K2)|K].
      + split; auto. tauto.
      + split; [right; right; eauto|].
        split.
        * intros [= ->]. unfold sleep_error in K.
          destruct K as [(K & _)|[(K & _)|(K & _)]]; discriminate K.
        * intros K'. specialize (Hc K'). injection Hc as ->.
          unfold sleep_error in K.
          destruct K as [(K & _)|[(K & _)|(K & _)]]; discriminate K. }
  cbv zeta in Hmain. destruct Hmain as [H1 H2].
  split; [exact H1|]. split; [exact H2|].
  intros Hd Hc.
  destruct H1 as [H1|[H1|(e & H1 & K)]]; [exact H1| |].
  - apply H2 in H1. destruct H1 as [Hn Ho]. rewrite (Hc Hn) in Ho.
    discriminate.
  - exfalso. unfold sleep_error, TIMEOUT_MAX, SLEEP_SURE in *. lia.
Qed.

End Foreground.

Lemma signals_ok_app (a b : list Event) :
  signals_ok (a ++ b) = signals_ok a && signals_ok b.
Proof. unfold signals_ok. rewrite existsb_app, negb_orb. reflexivity. Qed.

Lemma count_work_app (a b : list Event) :
  count_work (a ++ b) = (count_work a + count_work b)%nat.
Proof. unfold count_work. rewrite filter_app, length_app. reflexivity. Qed.

Lemma registration_events_plain (evs : list Event) :
  forallb registration_event evs = true ->
  signals_ok evs = true /\ count_work evs = 0%nat.
Proof.
  unfold signals_ok, count_work.
  induction evs as [|e evs IH]; cbn; [auto|].
  intros H. apply andb_true_iff in H as [H1 H2].
  destruct (IH H2) as (I1 & I2).
  destruct e; try discriminate; cbn; auto.
Qed.

(** As [exec_goal], with the counters left folded. *)
Ltac exec_counts :=
  unfold result_of, state_of, events_of, is_alive, _log, client_call, sleep,
    consult, bind, ret, raise, try_except, try_finally, emit, gets, modify;
  cbn -[count_calls count_sleeps signals_ok count_work Nat.sub].

Section Frames.

Variable cfg : Config.
Variable oracle : nat -> bool.

Lemma stop_frame (t : Z) (s : State) :
  exists s1 ev1,
    stop oracle t s = (Ok tt, s1, ev1) /\
    same_handlers s s1 /\
    _client s1 = _client s /\
    count_calls Construct ev1 = 0%nat /\
    signals_ok ev1 = true /\
    count_work ev1 = 0%nat.
Proof.
  destruct s as [c th st rg oi ot hi ht clk].
  unfold stop, _remove_once, join, same_handlers.
  destruct (TIMEOUT_MAX <? t), c as [[]|], th as [[]|]; exec_goal;
    repeat match goal with
           | |- context [oracle ?n] => destruct (oracle n); cbn
           end;
    eexists _, _; (split; [reflexivity|]); repeat split.
Qed.

Lemma install_frame (s : State) :
  exists s1 ev1,
    install_signal_handlers oracle s = (Ok tt, s1, ev1) /\
    _orig_sigint s1 = sigint_handler s /\
    _orig_sigterm s1 = sigterm_handler s /\
    (signals_ok ev1 = true ->
     sigint_handler s1 = Some NacosHandle /\
     sigterm_handler s1 = Some NacosHandle) /\
    _client s1 = _client s /\
    clock s1 = (clock s + List.length (filter
                  (fun e => match e with EvSignal _ _ => true | _ => false end)
                  ev1))%nat /\
    count_calls Construct ev1 = 0%nat /\
    count_work ev1 = 0%nat.
Proof.
  destruct s as [c th st rg oi ot hi ht clk].
  unfold install_signal_handlers, signal_signal. exec_goal.
  destruct (oracle clk); cbn; [destruct (oracle (S clk)); cbn|];
    eexists _, _; (split; [reflexivity|]); cbn;
    repeat split; try discriminate; lia.
Qed.

Lemma restore_frame (s : State) :
  exists s1 ev1,
    restore_signal_handlers oracle s = (Ok tt, s1, ev1) /\
    (signals_ok ev1 = true ->
     sigint_handler s1 = restored (_orig_sigint s) (sigint_handler s) /\
     sigterm_handler s1 = restored (_orig_sigterm s) (sigterm_handler s)) /\
    _client s1 = _client s /\
    count_calls Construct ev1 = 0%nat /\
    count_work ev1 = 0%nat.
Proof.
  destruct s as [c th st rg oi ot hi ht clk].
  unfold restore_signal_handlers, signal_signal. exec_goal.
  destruct oi as [h1|], ot as [h2|]; cbn;
    repeat match goal with
           | |- context [oracle ?n] => destruct (oracle n); cbn
           end;
    eexists _, _; (split; [reflexivity|]); cbn;
    repeat split; discriminate.
Qed.

Lemma start_frame (s : State) :
  let run := start cfg oracle s in
  same_handlers s (state_of run) /\
  (_client s <> None -> _client (state_of run) = _client s) /\
  (forall x, result_of run = Ok x -> _client (state_of run) <> None) /\
  (forall e, result_of run = Raise e -> is_Exception e = true) /\
  count_calls Construct (events_of run) = (1 - client_calls_of s)%nat /\
  signals_ok (events_of run) = true /\
  count_work (events_of run) = 0%nat.
Proof.
  cbv zeta. unfold start. rewrite init_client_absorbed. rewrite bind_run.
  pose proof (register_with_retry_facts cfg oracle None None s) as F.
  pose proof (register_with_retry_calls cfg oracle None None s) as B.
  cbv zeta in F, B.
  destruct F as ((F1 & _ & _ & F4 & F5) & F6 & _).
  destruct B as (_ & _ & B3 & _).
  destruct (registration_events_plain _ F5) as (P1 & P2).
  destruct (register_with_retry cfg oracle None None s) as [[r s1] ev1].
  unfold keeps_thread_state, same_handlers in *.
  unfold result_of, state_of, events_of in *. cbn [fst snd] in *.
  destruct r as [[|]|e]; [destruct (ephemeral cfg)|..]; exec_counts;
    rewrite ?app_nil_r, ?count_calls_app, ?signals_ok_app, ?count_work_app,
      ?B3, ?P1, ?P2; cbn.
  all: repeat split; try tauto; try discriminate; try lia.
  all: try (intros; eapply F6; reflexivity).
  all: try (intros e0 [= <-]; apply F4; reflexivity).
Qed.

End Frames.

Section ClientOnce.

Variable cfg : Config.
Variable oracle : nat -> bool.

Lemma single_call_client (s : State) :
  let reg := _register_once oracle s in
  let rem := _remove_once oracle s in
  (_client (state_of reg) = _client s /\
   count_calls Construct (events_of reg) = 0%nat) /\
  (_client (state_of rem) = _client s /\
   count_calls Construct (events_of rem) = 0%nat).
Proof.
  destruct s as [c th st rg oi ot hi ht clk].
  unfold _register_once, _remove_once.
  destruct c as [[]|]; exec_goal; [destruct (oracle clk)|]; cbn;
    repeat split.
Qed.

(** X5.  Once the controller holds a client, no method of it calls the
    client constructor again or drops the client. *)
Theorem client_is_built_once (op : Operation) (s : State) :
  _client s <> None ->
  let run := perform cfg oracle op s in
  count_calls Construct (events_of run) = 0%nat /\
  _client (state_of run) <> None.
Proof.
  intros Hc. cbv zeta.
  assert (H1 : (1 - client_calls_of s = 0)%nat).
  { unfold client_calls_of. destruct (_client s); [reflexivity|congruence]. }
  destruct op; cbn [perform].
  - destruct (init_client_cases oracle s)
      as [(_ & ->)|[(K & _)|(K & _)]]; [|congruence|congruence].
    split; [reflexivity|exact Hc].
  - destruct (single_call_client s) as ((K1 & K2) & _). cbv zeta in K1, K2.
    rewrite bind_run. destruct (_register_once oracle s) as [[[] ?] ?];
      unfold state_of, events_of in *; cbn [fst snd] in *;
      cbn -[count_calls]; rewrite ?app_nil_r; split; congruence.
  - pose proof (register_with_retry_facts cfg oracle retries delay s) as F.
    pose proof (register_with_retry_calls cfg oracle retries delay s) as B.
    cbv zeta in F, B. destruct F as (((_ & _ & _ & _ & _ & _ & F) & _) & _).
    destruct B as (_ & _ & B & _). rewrite H1 in B. specialize (F Hc).
    rewrite bind_run.
    destruct (register_with_retry cfg oracle retries delay s) as [[[] ?] ?];
      unfold state_of, events_of in *; cbn [fst snd] in *;
      cbn -[count_calls]; rewrite ?app_nil_r; split; congruence.
  - destruct (single_call_client s) as (_ & (K1 & K2)). cbv zeta in K1, K2.
    rewrite bind_run. destruct (_remove_once oracle s) as [[[] ?] ?];
      unfold state_of, events_of in *; cbn [fst snd] in *;
      cbn -[count_calls]; rewrite ?app_nil_r; split; congruence.
  - pose proof (heartbeat_loop_no_construct cfg oracle fuel 0 s Hc) as K.
    destruct (heartbeat_loop_facts cfg oracle fuel 0 s) as (_ & _ & _ & F).
    pose proof (F Hc) as F'.
    rewrite bind_run. unfold _heartbeat_loop.
    destruct (heartbeat_loop_from cfg oracle fuel 0 s) as [[[] ?] ?];
      unfold state_of, events_of in *; cbn [fst snd] in *;
      cbn -[count_calls]; rewrite ?app_nil_r; split; assumption.
  - destruct (start_frame cfg oracle s) as (_ & K1 & _ & _ & K2 & _).
    split; [congruence|]. rewrite (K1 Hc). exact Hc.
  - destruct (stop_frame oracle unregister_timeout s)
      as (s1 & ev1 & -> & _ & K1 & K2 & _). split; [exact K2|].
    unfold state_of. cbn. congruence.
  - destruct (install_frame oracle s)
      as (s1 & ev1 & -> & _ & _ & _ & K1 & _ & K2 & _). split; [exact K2|].
    unfold state_of. cbn. congruence.
  - destruct (restore_frame oracle s)
      as (s1 & ev1 & -> & _ & K1 & K2 & _). split; [exact K2|].
    unfold state_of. cbn. congruence.
  - unfold __enter__. rewrite bind_run.
    destruct (install_frame oracle s)
      as (s1 & ev1 & -> & _ & _ & _ & K1 & _ & K2 & _).
    assert (Hc1 : _client s1 <> None) by congruence.
    destruct (start_frame cfg oracle s1) as (_ & L1 & _ & _ & L2 & _).
    assert (H1' : (1 - client_calls_of s1 = 0)%nat).
    { unfold client_calls_of. destruct (_client s1); [reflexivity|congruence]. }
    specialize (L1 Hc1). rewrite H1' in L2.
    destruct (start cfg oracle s1) as [[r s2] ev2].
    unfold state_of, events_of in *. cbn [fst snd] in *.
    rewrite count_calls_app, K2, L2. split; [reflexivity|congruence].
  - unfold __exit__, try_finally.
    destruct (stop_frame oracle DEFAULT_UNREGISTER_TIMEOUT s)
      as (s1 & ev1 & -> & _ & K1 & K2 & _).
    destruct (restore_frame oracle s1) as (s2 & ev2 & -> & _ & L1 & L2 & _).
    unfold state_of, events_of. cbn [fst snd].
    rewrite count_calls_app, K2, L2. split; [reflexivity|congruence].
Qed.

End ClientOnce.

Lemma client_is_built_once_witness :
  count_calls Construct
    (events_of (perform example_config always OpStart started)) = 0%nat /\
  _client (state_of (perform example_config always OpStart started)) <> None.
Proof.
  apply (client_is_built_once example_config always OpStart started).
  vm_compute. discriminate.
Defined.

Section ContextManager.

Variable cfg : Config.
Variable oracle : nat -> bool.

Lemma exit_frame (s : State) :
  exists s2 ev,
    __exit__ oracle s = (Ok tt, s2, ev) /\
    (signals_ok ev = true ->
     sigint_handler s2 = restored (_orig_sigint s) (sigint_handler s) /\
     sigterm_handler s2 = restored (_orig_sigterm s) (sigterm_handler s)) /\
    count_work ev = 0%nat.
Proof.
  unfold __exit__, try_finally.
  destruct (stop_frame oracle DEFAULT_UNREGISTER_TIMEOUT s)
    as (s1 & ev1 & -> & (K1 & K2 & K3 & K4) & _ & _ & K5 & K6).
  destruct (restore_frame oracle s1) as (s2 & ev2 & -> & L1 & _ & _ & L2).
  eexists _, _. split; [reflexivity|].
  rewrite signals_ok_app, count_work_app, K5, K6, L2. cbn [andb].
  split; [|reflexivity]. intros H. specialize (L1 H).
  rewrite K1, K2, K3, K4 in L1. exact L1.
Qed.

Lemma enter_frame (s : State) :
  let run := __enter__ cfg oracle s in
  _orig_sigint (state_of run) = sigint_handler s /\
  _orig_sigterm (state_of run) = sigterm_handler s /\
  (signals_ok (events_of run) = true ->
   sigint_handler (state_of run) = Some NacosHandle /\
   sigterm_handler (state_of run) = Some NacosHandle) /\
  (forall e, result_of run = Raise e -> is_Exception e = true) /\
  count_work (events_of run) = 0%nat.
Proof.
  cbv zeta. unfold __enter__. rewrite bind_run.
  destruct (install_frame oracle s)
    as (s1 & ev1 & -> & K1 & K2 & K3 & _ & _ & _ & K4).
  destruct (start_frame cfg oracle s1)
    as ((L1 & L2 & L3 & L4) & _ & _ & L5 & _ & L6 & L7).
  destruct (start cfg oracle s1) as [[r s2] ev2].
  unfold result_of, state_of, events_of in *. cbn [fst snd] in *.
  rewrite signals_ok_app, count_work_app, L6, L7, K4, andb_true_r.
  repeat split; try congruence.
  - rewrite L3. apply K3. assumption.
  - rewrite L4. apply K3. assumption.
  - exact L5.
Qed.

End ContextManager.

Section Decorated.

Variable a : nacos_registry.Args.
Variable oracle : nat -> bool.
Variable R : Type.
Variable work : Result R.

(** X7.  The tail of [wrapper] is the [with] block: when [__enter__]
    returns, the decorated function is called once, [__exit__] runs after
    it and does not raise, and [wrapper] ends as the function did, except
    that an [Exception] of the function is logged and, without
    [raise_on_register_fail], turned into [None]; a [KeyboardInterrupt] or
    [SystemExit] of the function passes through unlogged.  When
    [__enter__] raises, the function is not called, [__exit__] does not
    run, and the exception is logged and raised again or turned into
    [None] in the same way. *)
Theorem decorator_with_block
        (service_ip : string) (service_port : Z) (s : State) :
  let cfg := nacos_registry.service_config a service_ip service_port in
  let enter := __enter__ cfg oracle s in
  let leave := __exit__ oracle (state_of enter) in
  let run := nacos_registry.activate a oracle R work service_ip service_port s in
  match result_of enter with
  | Ok _ =>
      result_of leave = Ok tt /\
      state_of run = state_of leave /\
      result_of run =
        decorated_result (nacos_registry.raise_on_register_fail a) work /\
      events_of run =
        events_of enter ++ EvWork :: events_of leave ++
        match work with
        | Raise e => if is_Exception e then decorated_error_log e else []
        | Ok _ => []
        end
  | Raise e =>
      state_of run = state_of enter /\
      result_of run =
        (if nacos_registry.raise_on_register_fail a then Raise e
         else Ok None) /\
      events_of run = events_of enter ++ decorated_error_log e
  end.
Proof.
  cbv zeta. unfold nacos_registry.activate, with_service.
  pose proof (enter_frame (nacos_registry.service_config a service_ip service_port)
                oracle s) as E. cbv zeta in E.
  destruct E as (_ & _ & _ & E & _).
  unfold try_except, try_finally, nacos_registry._call_func, bind.
  destruct (__enter__ _ oracle s) as [[re se] eve].
  unfold result_of, state_of, events_of in *. cbn [fst snd] in *.
  destruct re as [[]|e].
  - destruct (exit_frame oracle se) as (s3 & ev3 & X0 & _).
    unfold decorated_result, decorated_error_log.
    destruct work as [r|e]; exec_goal; rewrite ?X0; cbn.
    + rewrite ?app_nil_r. repeat split.
    + destruct (is_Exception e); cbn;
        [destruct (nacos_registry.raise_on_register_fail a); cbn|];
        rewrite <- ?app_assoc; cbn; rewrite ?app_nil_r; repeat split.
  - rewrite (E e eq_refl). unfold decorated_error_log.
    destruct (nacos_registry.raise_on_register_fail a); exec_goal;
      repeat split.
Qed.

(** X10.  When no [signal.signal] call of the decorated run fails: after
    a run that entered the [with] block, a signal whose handler
    [signal.getsignal] had reported has that handler again, and one for
    which it had reported [None] keeps the controller's handler; after a
    run whose [__enter__] raised, both signals keep the controller's
    handler, since [__exit__] never ran. *)
Theorem decorator_restores_handlers
        (service_ip : string) (service_port : Z) (s : State) :
  let cfg := nacos_registry.service_config a service_ip service_port in
  let run := nacos_registry.activate a oracle R work service_ip service_port s in
  signals_ok (events_of run) = true ->
  match result_of (__enter__ cfg oracle s) with
  | Ok _ =>
      sigint_handler (state_of run)
      = restored (sigint_handler s) (Some NacosHandle) /\
      sigterm_handler (state_of run)
      = restored (sigterm_handler s) (Some NacosHandle)
  | Raise _ =>
      sigint_handler (state_of run) = Some NacosHandle /\
      sigterm_handler (state_of run) = Some NacosHandle
  end.
Proof.
  cbv zeta. unfold nacos_registry.activate, with_service.
  pose proof (enter_frame (nacos_registry.service_config a service_ip service_port)
                oracle s) as E. cbv zeta in E.
  destruct E as (E1 & E2 & E3 & E4 & _).
  unfold try_except, try_finally, nacos_registry._call_func, bind.
  destruct (__enter__ _ oracle s) as [[re se] eve].
  unfold result_of, state_of, events_of in *. cbn [fst snd] in *.
  destruct re as [[]|e].
  - destruct (exit_frame oracle se) as (s3 & ev3 & X0 & X & _).
    assert (Hgoal : signals_ok eve = true -> signals_ok ev3 = true ->
                    sigint_handler s3
                    = restored (sigint_handler s) (Some NacosHandle) /\
                    sigterm_handler s3
                    = restored (sigterm_handler s) (Some NacosHandle)).
    { intros H1 H2. destruct (E3 H1) as [A1 A2]. destruct (X H2) as [B1 B2].
      rewrite B1, B2, E1, E2, A1, A2. split; reflexivity. }
    destruct work as [r|e]; exec_counts; rewrite ?X0;
      cbn -[signals_ok].
    + rewrite signals_ok_app. change (EvWork :: ev3) with ([EvWork] ++ ev3).
      rewrite signals_ok_app. cbn [signals_ok existsb is_failed_signal negb orb andb].
      intros H. apply andb_true_iff in H as [H1 H2]. auto.
    + destruct (is_Exception e); cbn -[signals_ok];
        [destruct (nacos_registry.raise_on_register_fail a);
         cbn -[signals_ok]|];
        rewrite ?signals_ok_app;
        change (EvWork :: ev3) with ([EvWork] ++ ev3);
        rewrite ?signals_ok_app;
        intros H; repeat (apply andb_true_iff in H as [H ?]);
        apply andb_true_iff in H as [H1 H2] || idtac; auto.
  - rewrite (E4 e eq_refl).
    destruct (nacos_registry.raise_on_register_fail a); exec_counts;
      rewrite signals_ok_app; intros H; apply andb_true_iff in H as [H1 _];
      exact (E3 H1).
Qed.

End Decorated.

Lemma decorator_restores_handlers_witness :
  sigint_handler
    (state_of (nacos_registry.activate (scenario_d_args "10.0.0.1:8080" true)
                 always Z (Ok 0) "10.0.0.1" 8080 fresh))
  = Some SIG_DFL /\
  sigterm_handler
    (state_of (nacos_registry.activate (scenario_d_args "10.0.0.1:8080" true)
                 always Z (Ok 0) "10.0.0.1" 8080 fresh))
  = Some SIG_DFL.
Proof.
  apply (decorator_restores_handlers (scenario_d_args "10.0.0.1:8080" true)
           always Z (Ok 0) "10.0.0.1" 8080 fresh).
  reflexivity.
Defined.






Section Routing.

Variable a : nacos_registry.Args.
Variable oracle : nat -> bool.
Variable R : Type.
Variable work : Result R.





End Routing.


Section RejectedDelay.

Variable cfg : Config.
Variable oracle : nat -> bool.

Lemma sleep_rejected (delay : Z) (s : State) :
  delay < 0 \/ TIMEOUT_MAX < delay ->
  exists e, sleep oracle delay s = (Raise e, s, []) /\ sleep_error delay e.
Proof.
  intros Hd. unfold sleep, sleep_error.
  destruct (delay <? - TIMEOUT_MAX) eqn:E1.
  { apply Z.ltb_lt in E1. exists OverflowError.
    split; [reflexivity|]. right. left. auto. }
  apply Z.ltb_ge in E1.
  destruct (TIMEOUT_MAX <? delay) eqn:E2.
  { apply Z.ltb_lt in E2. exists OverflowError.
    split; [reflexivity|]. right. left. auto. }
  apply Z.ltb_ge in E2. cbn [orb].
  destruct (delay <? 0) eqn:E3.
  { apply Z.ltb_lt in E3. exists (ValueError SleepNegative).
    split; [reflexivity|]. left. auto. }
  apply Z.ltb_ge in E3. exfalso. lia.
Qed.

(** X12.  [register_with_retry] on a controller that has its client.
    Whatever it raises comes from [time.sleep].  With a delay that
    [time.sleep] rejects outright, negative or above [TIMEOUT_MAX], it
    raises exactly when at least two attempts are allowed and the first
    one fails, and then after that one attempt, before any sleep, with
    the registration mark as it was.  With a delay from zero to
    [SLEEP_SURE] it does not raise. *)
Theorem rejected_delay_aborts_registration
        (retries delay : option Z) (s : State) :
  _client s <> None ->
  let run := register_with_retry cfg oracle retries delay s in
  let r := match retries with None => register_retries cfg | Some r => r end in
  let d := match delay with None => register_retry_delay cfg | Some d => d end in
  (forall e, result_of run = Raise e -> sleep_error d e) /\
  (d < 0 \/ TIMEOUT_MAX < d ->
   ((exists e, result_of run = Raise e) <->
    2 <= r /\ oracle (clock s) = false) /\
   ((exists e, result_of run = Raise e) ->
    count_calls AddInstance (events_of run) = 1%nat /\
    count_sleeps (events_of run) = 0%nat /\
    _registered (state_of run) = _registered s)) /\
  (0 <= d <= SLEEP_SURE -> exists b, result_of run = Ok b).
Proof.
  intros Hc. cbv zeta.
  set (r := match retries with None => register_retries cfg | Some r => r end).
  set (d := match delay with None => register_retry_delay cfg | Some d => d end).
  assert (Hkind : forall e,
             result_of (register_with_retry cfg oracle retries delay s)
             = Raise e -> sleep_error d e).
  { intros e He.
    destruct (register_with_retry_raises cfg oracle retries delay s e He)
      as [(_ & Hn & _)|K]; [congruence|exact K]. }
  split; [exact Hkind|]. split.
  2:{ intros Hd.
      destruct (result_of (register_with_retry cfg oracle retries delay s))
        as [b|e] eqn:E; [eauto|].
      specialize (Hkind e eq_refl). exfalso.
      unfold sleep_error, TIMEOUT_MAX, SLEEP_SURE in *. lia. }
  intros Hd.
  assert (Hrun : register_with_retry cfg oracle retries delay s
                 = retry_loop oracle (Z.to_nat r) 1 r d s).
  { unfold register_with_retry. rewrite bind_run.
    destruct (init_client_cases oracle s)
      as [(_ & ->)|[(Hn & _)|(Hn & _)]]; try contradiction.
    fold r d. destruct (retry_loop oracle (Z.to_nat r) 1 r d s) as [[? ?] ?].
    reflexivity. }
  rewrite Hrun.
  destruct (_client s) as [c|] eqn:Ec; [|contradiction].
  assert (Hfwd : 2 <= r -> oracle (clock s) = false ->
                 exists e,
                   retry_loop oracle (Z.to_nat r) 1 r d s
                   = (Raise e, tick s,
                      [EvCall AddInstance false;
                       EvLog LWarning
                         (MsgRegisterFailed (NacosException AddInstance));
                       EvLog LDebug MsgTraceback;
                       EvLog LInfo (MsgRetrying 1 r d)])).
  { intros Hr Ho.
    destruct (Z.to_nat r) as [|n] eqn:En; [lia|].
    cbn [retry_loop]. rewrite bind_run.
    rewrite (register_once_fail oracle s c Ec Ho).
    assert (H1 : (1 <? r) = true) by (apply Z.ltb_lt; lia).
    rewrite H1.
    destruct (sleep_rejected d (tick s) Hd) as (e & E & _).
    exists e. unfold bind, _log, emit. rewrite E. reflexivity. }
  assert (Hbwd : forall e,
             result_of (retry_loop oracle (Z.to_nat r) 1 r d s) = Raise e ->
             2 <= r /\ oracle (clock s) = false).
  { intros e He.
    destruct (Z.to_nat r) as [|n] eqn:En; [discriminate|].
    cbn [retry_loop] in He. rewrite bind_run in He.
    destruct (oracle (clock s)) eqn:Ho.
    - rewrite (register_once_ok oracle s c Ec Ho) in He. discriminate.
    - split; [|reflexivity].
      rewrite (register_once_fail oracle s c Ec Ho) in He.
      destruct (1 <? r) eqn:H1; [apply Z.ltb_lt in H1; lia|].
      exfalso. destruct n as [|n].
      + cbn in He. discriminate.
      + assert (r = 1) by (apply Z.ltb_ge in H1; lia). lia. }
  split.
  - split.
    + intros [e He]. exact (Hbwd e He).
    + intros (Hr & Ho). destruct (Hfwd Hr Ho) as (e & ->).
      exists e. reflexivity.
  - intros [e He]. destruct (Hbwd e He) as (Hr & Ho).
    destruct (Hfwd Hr Ho) as (e' & ->). repeat split.
Qed.

End RejectedDelay.

Lemma rejected_delay_aborts_registration_witness :
  (exists e,
      result_of (register_with_retry example_config (only []) (Some 3)
                   (Some (-1)) started) = Raise e) /\
  count_calls AddInstance
    (events_of (register_with_retry example_config (only []) (Some 3)
                  (Some (-1)) started)) = 1%nat.
Proof.
  destruct (rejected_delay_aborts_registration example_config (only [])
              (Some 3) (Some (-1)) started) as (_ & H & _).
  - vm_compute. discriminate.
  - destruct H as [[_ H] K]; [left; lia|].
    assert (E : exists e,
               result_of (register_with_retry example_config (only [])
                            (Some 3) (Some (-1)) started) = Raise e)
      by (apply H; split; [lia|reflexivity]).
    split; [exact E|]. apply K. exact E.
Defined.

Section SignalHandlerFacts.

Variable oracle : nat -> bool.
Variable previous :
  Handler -> Signal -> State -> Result unit * State * list HandleEvent.

(** X11.  The signal handler [_handle] never returns normally.  It logs
    the signal and runs [stop] once; the line about a failed shutdown is
    never among its own, since [stop] does not raise.  When the handler
    saved for the signal is [None], [SIG_DFL] or [SIG_IGN] it then raises
    [SystemExit].  When it is a function, that function is called once,
    after [stop], and [_handle] raises [SystemExit] if it returns or
    raises an [Exception], and lets anything else it raises, such as
    [KeyboardInterrupt], through. *)
Theorem handle_stops_once_then_exits (sig : Signal) (s : State) :
  let halt := stop oracle DEFAULT_UNREGISTER_TIMEOUT s in
  let run := _handle oracle previous sig s in
  let own := HvReceived sig :: map HvRun (snd halt) in
  match chained sig s with
  | None =>
      run = (Raise SystemExit, snd (fst halt), own)
  | Some h =>
      let prev := previous h sig (snd (fst halt)) in
      snd (fst run) = snd (fst prev) /\
      snd run = own ++ HvPrevious h sig :: snd prev /\
      fst (fst run) =
        match fst (fst prev) with
        | Raise e => if is_Exception e then Raise SystemExit else Raise e
        | Ok _ => Raise SystemExit
        end
  end.
Proof.
  cbv zeta. unfold _handle, chained.
  destruct (stop_frame oracle DEFAULT_UNREGISTER_TIMEOUT s)
    as (s1 & ev1 & E & (O1 & O2 & _) & _).
  rewrite E. cbn [fst snd].
  unfold after_stop.
  assert (Ho : orig_of sig s1 = orig_of sig s)
    by (destruct sig; assumption).
  rewrite Ho.
  destruct (orig_of sig s) as [[| |n|]|]; cbn [truthy callable andb];
    try reflexivity.
  - destruct (previous (PyHandler n) sig s1) as [[[|e] s2] ev2];
      cbn [fst snd]; [|destruct (is_Exception e)]; repeat split.
  - destruct (previous NacosHandle sig s1) as [[[|e] s2] ev2];
      cbn [fst snd]; [|destruct (is_Exception e)]; repeat split.
Qed.

End SignalHandlerFacts.

Section Handlers.

Variable oracle : nat -> bool.

(** X13.  When no [signal.signal] call fails,
    [install_signal_handlers] followed by [restore_signal_handlers]
    returns and brings back, for each signal, the handler
    [signal.getsignal] had reported; where that was [None] the
    controller's handler stays installed. *)
Theorem install_then_restore (s : State) :
  let run := (install_signal_handlers oracle ;;
              restore_signal_handlers oracle) s in
  signals_ok (events_of run) = true ->
  result_of run = Ok tt /\
  sigint_handler (state_of run)
  = restored (sigint_handler s) (Some NacosHandle) /\
  sigterm_handler (state_of run)
  = restored (sigterm_handler s) (Some NacosHandle).
Proof.
  cbv zeta. rewrite bind_run.
  destruct (install_frame oracle s) as (s1 & ev1 & -> & I1 & I2 & I3 & _).
  destruct (restore_frame oracle s1) as (s2 & ev2 & -> & R1 & _).
  unfold result_of, state_of, events_of. cbn [fst snd].
  rewrite signals_ok_app. intros H. apply andb_true_iff in H as [H1 H2].
  destruct (I3 H1) as [A1 A2]. destruct (R1 H2) as [B1 B2].
  rewrite B1, B2, I1, I2, A1, A2. repeat split.
Qed.

(** X14.  Installing twice loses the handlers of the process: the second
    [install_signal_handlers] saves the controller's own handler as the
    original, so that, when no [signal.signal] call fails, a later
    [restore_signal_handlers] installs that one again, whatever the
    handlers were at the start. *)
Theorem second_install_forgets_original (s : State) :
  let run := (install_signal_handlers oracle ;;
              install_signal_handlers oracle ;;
              restore_signal_handlers oracle) s in
  signals_ok (events_of run) = true ->
  result_of run = Ok tt /\
  _orig_sigint (state_of run) = Some NacosHandle /\
  _orig_sigterm (state_of run) = Some NacosHandle /\
  sigint_handler (state_of run) = Some NacosHandle /\
  sigterm_handler (state_of run) = Some NacosHandle.
Proof.
  cbv zeta. rewrite bind_run.
  destruct (install_frame oracle s) as (s1 & ev1 & -> & _ & _ & I3 & _).
  rewrite bind_run.
  destruct (install_frame oracle s1) as (s2 & ev2 & -> & J1 & J2 & J3 & _).
  pose proof (restore_frame oracle s2) as (s3 & ev3 & E & R1 & _).
  assert (Ho : _orig_sigint s3 = _orig_sigint s2 /\
               _orig_sigterm s3 = _orig_sigterm s2).
  { clear - E. destruct s2 as [c th st rg oi ot hi ht clk].
    unfold restore_signal_handlers, signal_signal in E.
    revert E. exec_goal.
    destruct oi as [h1|], ot as [h2|]; cbn;
      repeat match goal with
             | |- context [oracle ?n] => destruct (oracle n); cbn
             end;
      intros [= <- _]; split; reflexivity. }
  rewrite E. unfold result_of, state_of, events_of. cbn [fst snd].
  rewrite !signals_ok_app. intros H.
  apply andb_true_iff in H as [H1 H]. apply andb_true_iff in H as [H2 H3].
  destruct (I3 H1) as [A1 A2]. destruct (J3 H2) as [C1 C2].
  destruct (R1 H3) as [B1 B2]. destruct Ho as [O1 O2].
  rewrite O1, O2, B1, B2, J1, J2, A1, A2. repeat split.
Qed.

End Handlers.

Lemma install_then_restore_witness :
  sigint_handler
    (state_of ((install_signal_handlers always ;;
                restore_signal_handlers always) fresh)) = Some SIG_DFL.
Proof.
  apply (install_then_restore always fresh). reflexivity.
Defined.

Lemma second_install_forgets_original_witness :
  sigint_handler
    (state_of ((install_signal_handlers always ;;
                install_signal_handlers always ;;
                restore_signal_handlers always) fresh)) = Some NacosHandle.
Proof.
  apply (second_install_forgets_original always fresh). reflexivity.
Defined.
